(** * London choropleth map: colour ramps, style resolution, focus filter,
      zoom-driven layer switching and legend of [script.js]

    A shallow embedding of the visual-encoding core of [src/script.js]
    and the properties its specification states about it.

    Modelling conventions.
    - A JavaScript number is an exact rational ([Q]).  The prices of the
      data set are integers and the scores are decimals, for which the
      comparisons and the rounding used by the script agree with the exact
      ones.  Equality of numbers is [Qeq] ([==]).
    - A JavaScript object used as a dictionary is a [gmap] of its own
      properties.  A read [o[name]] of such an object is the lookup [!!]
      for every name that is no member of [Object.prototype]; [getProperty]
      is the read for all names, and [getFeatureStyleObject] and [populate]
      follow it.
    - The globals of the script ([currentYear], [maxPrice], ...) are the
      fields of one [State] record that every function receives.
    - What the script calls but does not define (the Leaflet map, the
      [turf] geometry library, globals of other scripts of the page) is an
      explicit environment: the map is a small record that logs the calls
      made on it, [turf] and foreign globals are fields of [Env]. *)

From Stdlib Require Import QArith Qround Qminmax ZArith Lia Lqa Sorted.
From stdpp Require Import base strings list gmap pretty.

Open Scope Q_scope.

(** ** JavaScript primitives *)

Module Js.

(** The exceptions a call can raise. *)
Inductive error : Type :=
| ReferenceError (name : string)
| TypeError (msg : string)
| Error (msg : string).

(** The completion of a call: a normal return or a thrown exception. *)
Inductive outcome (A : Type) : Type :=
| Ret (a : A)
| Throw (e : error).
Arguments Ret {A} a.
Arguments Throw {A} e.

(** [x > y] *)
Definition gt (x y : Q) : bool :=
  match x ?= y with Gt => true | _ => false end.

(** [x >= y] *)
Definition ge (x y : Q) : bool :=
  match x ?= y with Lt => false | _ => true end.

(** [Math.round(x)]: the nearest integer, halves rounded up. *)
Definition round (x : Q) : Z := Qfloor (x + (1 # 2)).

(** [`${n}`] for an integral number. *)
Definition to_string (n : Z) : string := pretty n.

End Js.

Import Js.

(** ** ColorRamp *)

(** [getPriceColor(price)], script.js:423-433. *)
Definition getPriceColor (price : Q) : string :=
  if gt price 1500000 then "#431407" else
  if gt price 1200000 then "#7c2d12" else
  if gt price 1000000 then "#c2410c" else
  if gt price 800000 then "#ea580c" else
  if gt price 600000 then "#f97316" else
  if gt price 450000 then "#fb923c" else
  if gt price 300000 then "#fdba74" else
  "#fed7aa".

(** An [[r, g, b]] array literal. *)
Definition RGB : Type := (Q * Q * Q)%type.

(** [getScaleColor(value, startRGB, endRGB)], script.js:447-453. *)
Definition getScaleColor (value : Q) (startRGB endRGB : RGB) : string :=
  let '(s0, s1, s2) := startRGB in
  let '(e0, e1, e2) := endRGB in
  let r := round (s0 + (e0 - s0) * value) in
  let g := round (s1 + (e1 - s1) * value) in
  let b := round (s2 + (e2 - s2) * value) in
  "rgb(" +:+ to_string r +:+ ", " +:+ to_string g +:+ ", " +:+ to_string b +:+ ")".

(** script.js:435-445. *)
Definition getCrimeColor (value : Q) : string :=
  getScaleColor value (255, 255, 255) (220, 38, 38).

Definition getCentralColor (value : Q) : string :=
  getScaleColor value (255, 255, 255) (37, 99, 235).

Definition getCultureColor (value : Q) : string :=
  getScaleColor value (255, 255, 255) (217, 119, 6).

(** ** Data model *)

(** The metric record of a region ([boroughData[name]], built by
    [getCombinedData], script.js:165-183): prices by year and property
    type, and three scores. *)
Record MetricRecord : Type := {
  prices : gmap Z (gmap string Q);
  crime : Q;
  central : Q;
  culture : Q;
  summary : string
}.

(** A GeoJSON feature: [properties.name], the polygon rings of its
    geometry, and the label marker that [onEachPostcode] stores in
    [properties.labelMarker] (absent until then). *)
Record Feature : Type := {
  name : string;
  geometry : list (list (Q * Q));
  labelMarker : option nat
}.

(** A Leaflet path style.  [dashArray] and [interactive] are absent from
    some of the style objects the script builds. *)
Record Style : Type := {
  fillColor : string;
  weight : Q;
  opacity : Q;
  color : string;
  dashArray : option string;
  fillOpacity : Q;
  interactive : option bool
}.

(** One path of a [L.geoJSON] layer group: its feature and the style
    object it was last given.  (Leaflet merges that object into the
    options of the path; the options themselves are not kept.) *)
Record Sublayer : Type := {
  feature : Feature;
  style : Style
}.

(** *** The Leaflet map *)

(** What can be mounted on the map: the base tiles, the two layer groups
    and the label markers of the postcode features. *)
Inductive LayerRef : Type :=
| TileLayer
| BoroughLayer
| PostcodeLayer
| LabelMarker (id : nat).

Global Instance LayerRef_eq_dec : EqDecision LayerRef.
Proof. solve_decision. Defined.

(** The calls the script makes on the map. *)
Inductive MapCall : Type :=
| AddLayer (l : LayerRef)
| RemoveLayer (l : LayerRef)
| FitBounds (target : Feature) (padding : Z * Z).

(** The map: its zoom level, the mounted layers (most recently mounted
    first; mounting twice would show as a duplicate) and the calls
    received so far, oldest first. *)
Record LMap : Type := {
  zoom : Q;
  layers : list LayerRef;
  calls : list MapCall
}.

(** [map.hasLayer(l)] *)
Definition hasLayer (m : LMap) (l : LayerRef) : bool :=
  bool_decide (l ∈ layers m).

(** [l.addTo(map)] *)
Definition addTo (l : LayerRef) (m : LMap) : LMap :=
  {| zoom := zoom m; layers := l :: layers m; calls := calls m ++ [AddLayer l] |}.

(** [map.removeLayer(l)] *)
Definition removeLayer (l : LayerRef) (m : LMap) : LMap :=
  {| zoom := zoom m;
     layers := filter (λ x, x ≠ l) (layers m);
     calls := calls m ++ [RemoveLayer l] |}.

(** [map.fitBounds(target.getBounds(), { padding })] *)
Definition fitBounds (target : Feature) (padding : Z * Z) (m : LMap) : LMap :=
  {| zoom := zoom m; layers := layers m;
     calls := calls m ++ [FitBounds target padding] |}.

(** The zoom level changes (the map substrate does this before it fires
    [zoomend]). *)
Definition setZoom (z : Q) (m : LMap) : LMap :=
  {| zoom := z; layers := layers m; calls := calls m |}.

(** *** Globals of the script *)

(** script.js:5-16, 86-92, 220.  The state is the one after [loadData]
    has built both layer groups: no handler runs before. *)
Record State : Type := {
  boroughData : gmap string MetricRecord;
  currentYear : Z;
  currentType : string;
  maxPrice : Q;
  currentMode : string;
  currentZoom : Q;
  activeBoroughGeometry : option Feature;
  postcodeLayer : list Sublayer;
  leafletMap : LMap
}.

Definition MAP_ZOOM_DEFAULT : Q := 10.
Definition MAP_ZOOM_SELECTED : Q := 12.

Definition set_activeBoroughGeometry (g : option Feature) (s : State) : State :=
  {| boroughData := boroughData s; currentYear := currentYear s;
     currentType := currentType s; maxPrice := maxPrice s;
     currentMode := currentMode s; currentZoom := currentZoom s;
     activeBoroughGeometry := g; postcodeLayer := postcodeLayer s;
     leafletMap := leafletMap s |}.

Definition set_postcodeLayer (l : list Sublayer) (s : State) : State :=
  {| boroughData := boroughData s; currentYear := currentYear s;
     currentType := currentType s; maxPrice := maxPrice s;
     currentMode := currentMode s; currentZoom := currentZoom s;
     activeBoroughGeometry := activeBoroughGeometry s; postcodeLayer := l;
     leafletMap := leafletMap s |}.

Definition set_leafletMap (m : LMap) (s : State) : State :=
  {| boroughData := boroughData s; currentYear := currentYear s;
     currentType := currentType s; maxPrice := maxPrice s;
     currentMode := currentMode s; currentZoom := currentZoom s;
     activeBoroughGeometry := activeBoroughGeometry s;
     postcodeLayer := postcodeLayer s; leafletMap := m |}.

Definition set_currentZoom (z : Q) (s : State) : State :=
  {| boroughData := boroughData s; currentYear := currentYear s;
     currentType := currentType s; maxPrice := maxPrice s;
     currentMode := currentMode s; currentZoom := z;
     activeBoroughGeometry := activeBoroughGeometry s;
     postcodeLayer := postcodeLayer s; leafletMap := leafletMap s |}.

(** *** Environment of the script *)

(** The two functions of the [turf] library that the script calls.  They
    are foreign code: each call either returns or throws. *)
Record Turf : Type := {
  center : Feature → outcome (Q * Q);
  booleanPointInPolygon : Q * Q → Feature → outcome bool
}.

(** What the page provides besides script.js: the [turf] global when its
    script was loaded, and the global functions that other scripts
    define, by name. *)
Record Env : Type := {
  turf : option Turf;
  foreign : string → option (State → outcome () * State)
}.

(** The top-level bindings of script.js, in source order. *)
Definition declared : list string :=
  [ "boroughData"; "MAP_CENTER"; "MAP_ZOOM_DEFAULT"; "MAP_ZOOM_SELECTED";
    "MAP_ZOOM_THRESHOLD"; "currentYear"; "currentType"; "maxPrice";
    "currentMode"; "geoJsonLayer"; "map"; "priceDisplay"; "priceRange";
    "yearSelect"; "typeSelect"; "detailsPanel"; "legendContent";
    "modeButtons"; "initMap"; "initControls"; "boroughLayer";
    "postcodeLayer"; "currentZoom"; "realPropertyData"; "loadData";
    "getCombinedData"; "handleZoomChange"; "activeBoroughGeometry";
    "styleBorough"; "stylePostcode"; "getFeatureStyle"; "onEachBorough";
    "onEachPostcode"; "highlightFeature"; "resetBoroughHighlight";
    "resetPostcodeHighlight"; "getAveragePrice"; "getPriceColor";
    "getCrimeColor"; "getCentralColor"; "getCultureColor"; "getScaleColor";
    "onEachFeature"; "highlightFeature"; "resetHighlight"; "zoomToFeature";
    "updateMapVisuals"; "updateSidebar"; "getScoreClass"; "getScoreText";
    "updateLegend" ].

(** ** StyleResolver *)

(** The [value] that [getFeatureStyle] computes in price mode from the
    record of the region, script.js:299-317.  [Object.values(prices)] is
    the list of the entries present; [reduce] sums it from the left. *)
Definition priceValue (s : State) (data : MetricRecord) : Q :=
  match prices data !! currentYear s with
  | Some prices =>
      if decide (currentType s = "all") then
        let values := (map_to_list prices).*2 in
        if decide (length values = 0%nat) then 0
        else fold_left Qplus values 0 / inject_Z (Z.of_nat (length values))
      else
        default 0 (prices !! currentType s)
  | None => 0
  end.

(** [getFeatureStyle(feature, defaultOpacity, weight, borderColor, fillOp)],
    script.js:284-342, for a name that has a record or is no member of
    [Object.prototype]: [data] is then the record or [undefined].
    [getFeatureStyleObject] below is the function on every name.  The
    [console.log] of the 2026 debug branch has no effect on the result and
    is left out. *)
Definition getFeatureStyle (s : State) (feature : Feature)
    (defaultOpacity weight : Q) (borderColor : string) (fillOp : Q) : Style :=
  match boroughData s !! name feature with
  | None =>
      {| fillColor := "#ccc"; weight := weight; opacity := 1;
         color := borderColor; dashArray := None; fillOpacity := 0.2;
         interactive := None |}
  | Some data =>
      let color :=
        if decide (currentMode s = "price") then
          let value := priceValue s data in
          if gt value (maxPrice s) then "#431407" else getPriceColor value
        else if decide (currentMode s = "crime") then getCrimeColor (crime data)
        else if decide (currentMode s = "central") then getCentralColor (central data)
        else if decide (currentMode s = "culture") then getCultureColor (culture data)
        else "#ccc" in
      {| fillColor := color; weight := weight; opacity := 1;
         color := borderColor; dashArray := Some ""; fillOpacity := fillOp;
         interactive := None |}
  end.

(** *** Reading [boroughData] as the plain object it is

    [boroughData] is created as [{}] (script.js:2), so [boroughData[name]]
    also finds what the object inherits from [Object.prototype]. *)

(** The names of the members of [Object.prototype]. *)
Definition objectPrototype : list string :=
  [ "constructor"; "__defineGetter__"; "__defineSetter__";
    "hasOwnProperty"; "__lookupGetter__"; "__lookupSetter__";
    "isPrototypeOf"; "propertyIsEnumerable"; "toString"; "valueOf";
    "__proto__"; "toLocaleString" ].

(** What [o[name]] finds: an own property, an inherited member (a
    function, or [Object.prototype] itself for ["__proto__"]: truthy, and
    without [prices], [crime], [central] or [culture]), or nothing. *)
Inductive member (A : Type) : Type :=
| Own (a : A)
| Inherited
| Missing.
Arguments Own {A} a.
Arguments Inherited {A}.
Arguments Missing {A}.

Definition getProperty {A : Type} (o : gmap string A) (name : string)
    : member A :=
  match o !! name with
  | Some a => Own a
  | None => if decide (name ∈ objectPrototype) then Inherited else Missing
  end.

(** [getFeatureStyle], script.js:284-342, on every name.  On an
    inherited member the guard [if (!data)] of script.js:289 does not
    apply; [data.prices] is [undefined], so [data.prices[currentYear]]
    (script.js:303) throws a [TypeError], and the score ramps are given
    [undefined] and return ["rgb(NaN, NaN, NaN)"]. *)
Definition getFeatureStyleObject (s : State) (feature : Feature)
    (defaultOpacity weight : Q) (borderColor : string) (fillOp : Q)
    : outcome Style :=
  match getProperty (boroughData s) (name feature) with
  | Inherited =>
      if decide (currentMode s = "price") then
        Throw (TypeError "data.prices is undefined")
      else
        let color :=
          if decide (currentMode s = "crime") then "rgb(NaN, NaN, NaN)"
          else if decide (currentMode s = "central") then "rgb(NaN, NaN, NaN)"
          else if decide (currentMode s = "culture") then "rgb(NaN, NaN, NaN)"
          else "#ccc" in
        Ret {| fillColor := color; weight := weight; opacity := 1;
               color := borderColor; dashArray := Some "";
               fillOpacity := fillOp; interactive := None |}
  | Own _ | Missing =>
      Ret (getFeatureStyle s feature defaultOpacity weight borderColor fillOp)
  end.

(** ** FocusFilter *)

(** The style of a postcode outside the focused borough,
    script.js:266-273. *)
Definition hiddenStyle : Style :=
  {| fillColor := "transparent"; weight := 0; opacity := 0;
     color := "transparent"; dashArray := None; fillOpacity := 0;
     interactive := Some false |}.

(** [stylePostcode(feature)], script.js:255-282.  Nothing catches what
    [turf.center] or [turf.booleanPointInPolygon] throw. *)
Definition stylePostcode (env : Env) (s : State) (feature : Feature)
    : outcome Style :=
  match activeBoroughGeometry s, turf env with
  | Some focus, Some t =>
      match center t feature with
      | Throw e => Throw e
      | Ret c =>
          match booleanPointInPolygon t c focus with
          | Throw e => Throw e
          | Ret isInside =>
              if negb isInside then Ret hiddenStyle
              else Ret (getFeatureStyle s feature 0.9 1.5 "#fff" 0.9)
          end
      end
  | _, _ => Ret (getFeatureStyle s feature 0.9 1 "#eee" 0.8)
  end.

(** [layer.setStyle(styleFn)] on a [L.geoJSON] group: the paths are
    restyled one after the other; when [styleFn] throws, the paths
    already visited keep their new style and the others their old one. *)
Fixpoint setStyle (styleFn : Feature → outcome Style) (l : list Sublayer)
    : outcome () * list Sublayer :=
  match l with
  | [] => (Ret (), [])
  | p :: rest =>
      match styleFn (feature p) with
      | Throw e => (Throw e, p :: rest)
      | Ret st =>
          let '(r, rest') := setStyle styleFn rest in
          (r, {| feature := feature p; style := st |} :: rest')
      end
  end.

(** The [click] handler that [onEachBorough] installs on a borough,
    script.js:349-359.  [updatePostcodeLabels] is not a binding of
    script.js; the call resolves in the foreign globals and raises a
    [ReferenceError] when there is none. *)
Definition onBoroughClick (env : Env) (feature : Feature) (s : State)
    : outcome () * State :=
  let s1 := set_activeBoroughGeometry (Some feature) s in
  let s2 := set_leafletMap (fitBounds feature (20, 20)%Z (leafletMap s1)) s1 in
  let '(r, l) := setStyle (stylePostcode env s2) (postcodeLayer s2) in
  let s3 := set_postcodeLayer l s2 in
  match r with
  | Throw e => (Throw e, s3)
  | Ret _ =>
      match foreign env "updatePostcodeLabels" with
      | Some f => f s3
      | None => (Throw (ReferenceError "updatePostcodeLabels"), s3)
      end
  end.

(** ** DetailLevelController *)

(** [postcodeLayer.eachLayer(layer => { if (labelMarker) labelMarker.addTo(map) })],
    script.js:196-200. *)
Definition addLabels (l : list Sublayer) (m : LMap) : LMap :=
  fold_left
    (λ m p, match labelMarker (feature p) with
            | Some id => addTo (LabelMarker id) m
            | None => m
            end) l m.

(** [postcodeLayer.eachLayer(layer => { if (labelMarker) map.removeLayer(labelMarker) })],
    script.js:207-211. *)
Definition removeLabels (l : list Sublayer) (m : LMap) : LMap :=
  fold_left
    (λ m p, match labelMarker (feature p) with
            | Some id => removeLayer (LabelMarker id) m
            | None => m
            end) l m.

(** [handleZoomChange()], script.js:185-216. *)
Definition handleZoomChange (s : State) : State :=
  let zoom := zoom (leafletMap s) in
  let s := set_currentZoom zoom s in
  let m := leafletMap s in
  if ge zoom (MAP_ZOOM_SELECTED - 1) then
    let m := if hasLayer m BoroughLayer then removeLayer BoroughLayer m else m in
    let m := if negb (hasLayer m PostcodeLayer)
             then addLabels (postcodeLayer s) (addTo PostcodeLayer m)
             else m in
    set_leafletMap m s
  else
    let m := if hasLayer m PostcodeLayer
             then removeLabels (postcodeLayer s) (removeLayer PostcodeLayer m)
             else m in
    let m := if negb (hasLayer m BoroughLayer) then addTo BoroughLayer m else m in
    set_leafletMap m s.

(** A zoom notification: the map reaches zoom level [z] and fires
    [zoomend], on which [loadData] registered [handleZoomChange]
    (script.js:156). *)
Definition notifyZoom (s : State) (z : Q) : State :=
  handleZoomChange (set_leafletMap (setZoom z (leafletMap s)) s).

Definition notifyZooms (s : State) (zs : list Q) : State :=
  fold_left notifyZoom zs s.

(** [onEachPostcode(feature, layer)], script.js:363-391, as far as the
    state goes: a new marker, here the [id]-th one, is stored in
    [feature.properties.labelMarker]. *)
Definition onEachPostcode (id : nat) (feature : Feature) : Feature :=
  {| name := name feature; geometry := geometry feature;
     labelMarker := Some id |}.

(** The state in which [loadData] (script.js:94-163) leaves the script
    when it succeeds, for the metric records [data] and the postcode
    features [postcodeDataJson]: the globals at their initial values
    (script.js:11-14, 89, 220), the tiles ([initMap]) and the borough
    layer mounted, the postcode layer built with [stylePostcode] and
    [onEachPostcode] but not mounted. *)
Definition initialState (data : gmap string MetricRecord)
    (postcodeDataJson : list Feature) : State :=
  let s0 :=
    {| boroughData := data; currentYear := 2025; currentType := "all";
       maxPrice := 5000000; currentMode := "price";
       currentZoom := MAP_ZOOM_DEFAULT; activeBoroughGeometry := None;
       postcodeLayer := [];
       leafletMap :=
         {| zoom := MAP_ZOOM_DEFAULT;
            layers := [BoroughLayer; TileLayer];
            calls := [AddLayer TileLayer; AddLayer BoroughLayer] |} |} in
  set_postcodeLayer
    (imap (λ i f, {| feature := onEachPostcode i f;
                     style := getFeatureStyle s0 f 0.9 1 "#eee" 0.8 |})
          postcodeDataJson)
    s0.

(** Replaying a log of map calls on a list of mounted layers.  The replay
    fails on a call that mounts a mounted layer or unmounts one that is
    not mounted. *)
Fixpoint replay (ls : list LayerRef) (cs : list MapCall)
    : option (list LayerRef) :=
  match cs with
  | [] => Some ls
  | AddLayer l :: cs =>
      if bool_decide (l ∈ ls) then None else replay (l :: ls) cs
  | RemoveLayer l :: cs =>
      if bool_decide (l ∈ ls) then replay (filter (λ x, x ≠ l) ls) cs else None
  | FitBounds _ _ :: cs => replay ls cs
  end.

(** The log of the map replays to the mounted layers: no call mounted a
    mounted layer or unmounted one that was not mounted. *)
Definition consistent (m : LMap) : Prop :=
  replay [] (calls m) = Some (layers m).

(** ** LegendBuilder *)

(** script.js:553-554. *)
Definition grades : list Q :=
  [0; 400000; 500000; 600000; 800000; 1000000; 1200000; 1500000].

Definition labels : list string :=
  ["< £400k"; "£400k+"; "£500k+"; "£600k+"; "£800k+"; "£1M+"; "£1.2M+";
   "> £1.5M"].

(** The (swatch, label) pairs that [updateLegend] renders,
    script.js:550-577: in price mode one per index of [grades], the
    swatch being [getPriceColor(grades[i] + 1)]; otherwise one gradient. *)
Definition legendEntries (s : State) : list (string * string) :=
  if decide (currentMode s = "price") then
    (λ i, (getPriceColor (nth i grades 0 + 1), nth i labels "")) <$>
      seq 0 (length grades)
  else
    let colors :=
      if decide (currentMode s = "crime") then ("white", "#dc2626")
      else if decide (currentMode s = "central") then ("white", "#2563eb")
      else ("white", "#d97706") in
    [("linear-gradient(to right, " +:+ colors.1 +:+ ", " +:+ colors.2 +:+ ")",
      "Low to High")].

(** The double quote of the HTML attributes. *)
Definition dq : string := String (Ascii.ascii_of_nat 34) EmptyString.

(** One [legend-item] block of the template, script.js:559-564. *)
Definition legendItem (entry : string * string) : string :=
  "<div class=" +:+ dq +:+ "legend-item" +:+ dq +:+ ">" +:+
  "<div class=" +:+ dq +:+ "legend-color" +:+ dq +:+
  " style=" +:+ dq +:+ "background:" +:+ entry.1 +:+ dq +:+ "></div>" +:+
  "<span>" +:+ entry.2 +:+ "</span></div>".

(** [updateLegend()]: the markup assigned to [legendContent.innerHTML]
    (white space between the tags left out). *)
Definition updateLegend (s : State) : string :=
  foldr (λ e html, legendItem e +:+ html) "" (legendEntries s).

(** *** The break points of the price ramp

    The thresholds of [getPriceColor] from the lowest to the highest,
    with 0 for the last branch, and the colour of each bucket. *)
Definition priceBreakPoints : list Q :=
  [0; 300000; 450000; 600000; 800000; 1000000; 1200000; 1500000].

Definition priceColors : list string :=
  ["#fed7aa"; "#fdba74"; "#fb923c"; "#f97316"; "#ea580c"; "#c2410c";
   "#7c2d12"; "#431407"].

(** The ramp as the specification words it: the break points from the
    highest to the lowest, each with its colour, scanned in that order
    with a strict comparison; the palest colour when none is exceeded. *)
Definition priceTable : list (Q * string) :=
  reverse (zip priceBreakPoints priceColors).

Fixpoint rampLookup (table : list (Q * string)) (v : Q) : string :=
  match table with
  | [] => "#fed7aa"
  | (t, c) :: rest => if gt v t then c else rampLookup rest v
  end.

(** The break points that [v] strictly exceeds, from the lowest to the
    highest, each with its colour; the colour of the lowest and of the
    highest of them, the palest colour when there is none. *)
Definition exceeded (v : Q) : list (Q * string) :=
  filter (λ e, gt v e.1) (zip priceBreakPoints priceColors).

Definition lowestExceededColor (v : Q) : string :=
  match exceeded v with
  | [] => "#fed7aa"
  | (_, c) :: _ => c
  end.

Definition highestExceededColor (v : Q) : string :=
  match last (exceeded v) with
  | Some (_, c) => c
  | None => "#fed7aa"
  end.

(** *** The mean of the specification

    The property types of the data model and the arithmetic mean of the
    entries among them that a year holds, 0 when it holds none. *)
Definition propertyTypes : list string :=
  ["detached"; "semi"; "terraced"; "flat"].

Definition Qsum (l : list Q) : Q := foldr Qplus 0 l.

Definition mean (l : list Q) : Q :=
  match l with
  | [] => 0
  | _ => Qsum l / inject_Z (Z.of_nat (length l))
  end.

Definition presentEntries (yearPrices : gmap string Q) : list Q :=
  omap (λ t, yearPrices !! t) propertyTypes.

(** *** The two layer configurations of the controller *)

Definition labelIds (l : list Sublayer) : list nat :=
  omap (λ p, labelMarker (feature p)) l.

Definition coarseLayers : list LayerRef := [BoroughLayer; TileLayer].

Definition fineLayers (l : list Sublayer) : list LayerRef :=
  reverse (LabelMarker <$> labelIds l) ++ [PostcodeLayer; TileLayer].

(** The configurations the controller is meant to be in: the log replays
    to the mounted layers, which are the coarse or the fine ones. *)
Definition controllerInv (s : State) : Prop :=
  NoDup (labelIds (postcodeLayer s))
  ∧ consistent (leafletMap s)
  ∧ (layers (leafletMap s) = coarseLayers
     ∨ layers (leafletMap s) = fineLayers (postcodeLayer s)).

(** The layers that belong on the map at zoom level [z]. *)
Definition layersAt (s : State) (z : Q) : list LayerRef :=
  if ge z (MAP_ZOOM_SELECTED - 1) then fineLayers (postcodeLayer s)
  else coarseLayers.

(** ** The rest of the script

    The functions of script.js that the definitions above leave out: the
    borough style, the restyling of both layers, the handlers of the
    controls, the loading of the metric records, the sidebar and the
    score classes. *)

Global Instance Q_eq_dec : EqDecision Q.
Proof. solve_decision. Defined.

Global Instance Feature_eq_dec : EqDecision Feature.
Proof. solve_decision. Defined.

(** [styleBorough(feature)], script.js:222-253.  [feature ===
    activeBoroughGeometry] compares object identities; it is modelled by
    the equality of the records.  The two agree when the focus is a feature
    of the borough layer, which is what the click handler assigns
    (script.js:351), and no two features of that layer have the same
    contents; what is stated about the focused borough assumes both. *)
Definition styleBorough (s : State) (feature : Feature) : Style :=
  match activeBoroughGeometry s with
  | Some focus =>
      if decide (feature = focus) then
        {| fillColor := "transparent"; weight := 2; opacity := 1;
           color := "#666"; dashArray := None; fillOpacity := 0;
           interactive := Some false |}
      else
        {| fillColor := "#f5f5f5"; weight := 1; opacity := 1;
           color := "#ddd"; dashArray := None; fillOpacity := 0.5;
           interactive := Some false |}
  | None => getFeatureStyle s feature 0.8 2 "white" 0.6
  end.

(** The script state together with what it keeps outside its globals:
    the paths of the borough layer and the markup of the legend element. *)
Record Page : Type := {
  script : State;
  boroughLayer : list Sublayer;
  legendContent : string
}.

(** [updateMapVisuals()], script.js:487-490: the borough layer is
    restyled first, then the postcode layer, whose style function can
    throw. *)
Definition updateMapVisuals (env : Env) (pg : Page) : outcome () * Page :=
  let s := script pg in
  let '(_, b) := setStyle (λ f, Ret (styleBorough s f)) (boroughLayer pg) in
  let '(r, l) := setStyle (stylePostcode env s) (postcodeLayer s) in
  (r, {| script := set_postcodeLayer l s; boroughLayer := b;
         legendContent := legendContent pg |}).

Definition set_currentYear (y : Z) (s : State) : State :=
  {| boroughData := boroughData s; currentYear := y;
     currentType := currentType s; maxPrice := maxPrice s;
     currentMode := currentMode s; currentZoom := currentZoom s;
     activeBoroughGeometry := activeBoroughGeometry s;
     postcodeLayer := postcodeLayer s; leafletMap := leafletMap s |}.

Definition set_currentType (t : string) (s : State) : State :=
  {| boroughData := boroughData s; currentYear := currentYear s;
     currentType := t; maxPrice := maxPrice s;
     currentMode := currentMode s; currentZoom := currentZoom s;
     activeBoroughGeometry := activeBoroughGeometry s;
     postcodeLayer := postcodeLayer s; leafletMap := leafletMap s |}.

Definition set_currentMode (m : string) (s : State) : State :=
  {| boroughData := boroughData s; currentYear := currentYear s;
     currentType := currentType s; maxPrice := maxPrice s;
     currentMode := m; currentZoom := currentZoom s;
     activeBoroughGeometry := activeBoroughGeometry s;
     postcodeLayer := postcodeLayer s; leafletMap := leafletMap s |}.

Definition set_maxPrice (p : Q) (s : State) : State :=
  {| boroughData := boroughData s; currentYear := currentYear s;
     currentType := currentType s; maxPrice := p;
     currentMode := currentMode s; currentZoom := currentZoom s;
     activeBoroughGeometry := activeBoroughGeometry s;
     postcodeLayer := postcodeLayer s; leafletMap := leafletMap s |}.

Definition set_script (s : State) (pg : Page) : Page :=
  {| script := s; boroughLayer := boroughLayer pg;
     legendContent := legendContent pg |}.

(** What the user and the map do to the page: the [zoomend] of the map,
    a click on a borough, and the four controls of [initControls]
    (script.js:59-83), each with the value read from the control, parsed.
    The pointer handlers are left out: [mouseover] and [mouseout]
    (script.js:346-348, 365-366, 393-411) change the style of the path
    under the pointer, and the click on a postcode (script.js:367-369)
    writes the details panel; none of them assigns a global, mounts or
    unmounts a layer or writes the legend. *)
Inductive Event : Type :=
| ZoomEnd (z : Q)
| BoroughClick (borough : Feature)
| PriceInput (value : Z)
| YearChange (value : Z)
| TypeChange (value : string)
| ModeClick (mode : string).

(** The handler of an event.  The listeners of the controls set their
    global and call [updateMapVisuals]; the mode buttons then call
    [updateLegend], which the exception of a throwing restyle skips.  The
    text of the price display and the [active] class of the mode buttons
    are left out: nothing reads them. *)
Definition dispatch (env : Env) (pg : Page) (e : Event) : outcome () * Page :=
  match e with
  | ZoomEnd z => (Ret (), set_script (notifyZoom (script pg) z) pg)
  | BoroughClick borough =>
      let '(r, s) := onBoroughClick env borough (script pg) in
      (r, set_script s pg)
  | PriceInput value =>
      updateMapVisuals env (set_script (set_maxPrice (inject_Z value) (script pg)) pg)
  | YearChange value =>
      updateMapVisuals env (set_script (set_currentYear value (script pg)) pg)
  | TypeChange value =>
      updateMapVisuals env (set_script (set_currentType value (script pg)) pg)
  | ModeClick mode =>
      let '(r, pg') :=
        updateMapVisuals env (set_script (set_currentMode mode (script pg)) pg) in
      match r with
      | Throw e => (Throw e, pg')
      | Ret _ =>
          (Ret (), {| script := script pg'; boroughLayer := boroughLayer pg';
                      legendContent := updateLegend (script pg') |})
      end
  end.

(** The page after a sequence of events.  An exception that leaves a
    handler ends that handler only: the page stays as the handler left
    it and the next event is handled. *)
Definition runEvents (env : Env) (pg : Page) (es : list Event) : Page :=
  fold_left (λ pg e, (dispatch env pg e).2) es pg.

(** *** Loading the metric records *)

(** [getCombinedData(name)], script.js:165-183, for a name that is no
    member of [Object.prototype]: [loadData] calls it on no other name
    (see [populate]), and [realPropertyData[name]] is then the lookup.
    [realPropertyData] maps a name to the prices of its entry in
    [london_data.json]; [getMockData] is the generator of another script. *)
Definition getCombinedData (realPropertyData : gmap string (gmap Z (gmap string Q)))
    (getMockData : string → MetricRecord) (name : string) : MetricRecord :=
  match realPropertyData !! name with
  | Some real =>
      let mock := getMockData name in
      {| prices := real; crime := crime mock; central := central mock;
         culture := culture mock;
         summary := "Real Market Data: " +:+ name +:+ " (Source: CSV)" |}
  | None => getMockData name
  end.

(** One [features.forEach] of [loadData], script.js:111-124: a feature
    with a non-empty name gets a record when [boroughData[name]] is
    falsy.  It is truthy for a name that has a record, and also for a
    member name of [Object.prototype], which therefore never gets one. *)
Definition populate (realPropertyData : gmap string (gmap Z (gmap string Q)))
    (getMockData : string → MetricRecord) (features : list Feature)
    (boroughData : gmap string MetricRecord) : gmap string MetricRecord :=
  fold_left
    (λ data f,
       if decide (name f ≠ "") then
         match getProperty data (name f) with
         | Own _ | Inherited => data
         | Missing =>
             <[name f := getCombinedData realPropertyData getMockData (name f)]> data
         end
       else data)
    features boroughData.

(** The records after [loadData]: the boroughs first, then the
    postcodes, from an empty [boroughData] (script.js:2). *)
Definition loadStore (realPropertyData : gmap string (gmap Z (gmap string Q)))
    (getMockData : string → MetricRecord)
    (boroughDataJson postcodeDataJson : list Feature)
    : gmap string MetricRecord :=
  populate realPropertyData getMockData postcodeDataJson
    (populate realPropertyData getMockData boroughDataJson ∅).

(** The page when [loadData] has succeeded (script.js:94-163): the
    records loaded, both layers built (the borough layer with
    [styleBorough]) and the legend written.  Building the layers styles
    every feature in the initial price mode; [loadData] catches what that
    throws, as [getFeatureStyleObject] does on a feature named like a
    member of [Object.prototype], and then leaves no page to act on. *)
Definition initialPage (realPropertyData : gmap string (gmap Z (gmap string Q)))
    (getMockData : string → MetricRecord)
    (boroughDataJson postcodeDataJson : list Feature) : Page :=
  let s := initialState
             (loadStore realPropertyData getMockData boroughDataJson postcodeDataJson)
             postcodeDataJson in
  {| script := s;
     boroughLayer :=
       (λ f, {| feature := f; style := styleBorough s f |}) <$> boroughDataJson;
     legendContent := updateLegend s |}.

(** *** The unguarded average *)

(** A number or [NaN]. *)
Inductive number : Type :=
| Num (q : Q)
| NaN.

(** [getAveragePrice(data)], script.js:413-421.  Without prices for the
    year, [Object.values(undefined)] and [undefined[currentType]] throw a
    [TypeError]; the average over no value is [0 / 0]. *)
Definition getAveragePrice (s : State) (data : MetricRecord) : outcome number :=
  match prices data !! currentYear s with
  | None => Throw (TypeError "yearData is undefined")
  | Some yearData =>
      if decide (currentType s = "all") then
        let values := (map_to_list yearData).*2 in
        if decide (length values = 0%nat) then Ret NaN
        else Ret (Num (fold_left Qplus values 0
                       / inject_Z (Z.of_nat (length values))))
      else Ret (Num (default 0 (yearData !! currentType s)))
  end.

(** *** Sidebar *)

(** [getScoreClass(val)] and [getScoreText(val)], script.js:538-548. *)
Definition getScoreClass (val : Q) : string :=
  if gt val 0.7 then "stat-high"
  else if gt val 0.4 then "stat-med"
  else "stat-low".

Definition getScoreText (val : Q) : string :=
  if gt val 0.7 then "High"
  else if gt val 0.4 then "Medium"
  else "Low".

(** What [updateSidebar] writes into the details panel: the texts and
    classes that fill its template. *)
Record Details : Type := {
  title : string;
  detailSummary : string;
  priceYear : Z;
  priceText : string;
  crimeClass : string; crimeText : string;
  centralClass : string; centralText : string;
  cultureClass : string; cultureText : string
}.

(** [updateSidebar(props)], script.js:492-536.  Nothing is written for a
    name without a record.  [toLocaleString] and [toFixed] are the
    number formatters of the platform. *)
Definition updateSidebar (toLocaleString : Z → string) (toFixed0 : Q → string)
    (s : State) (props : Feature) : option Details :=
  match boroughData s !! name props with
  | None => None
  | Some data =>
      let currentPrice :=
        match prices data !! currentYear s with
        | Some prices =>
            if decide (currentType s = "all") then
              let values := (map_to_list prices).*2 in
              if decide (length values = 0%nat) then 0
              else fold_left Qplus values 0 / inject_Z (Z.of_nat (length values))
            else default 0 (prices !! currentType s)
        | None => 0
        end in
      let currentPrice := round currentPrice in
      Some {| title := name props;
              detailSummary := summary data;
              priceYear := currentYear s;
              priceText := "£" +:+ (if decide (currentPrice = 0%Z) then "N/A"
                                    else toLocaleString currentPrice);
              crimeClass := getScoreClass (crime data);
              crimeText := toFixed0 (crime data * 100) +:+ "/100";
              centralClass := getScoreClass (central data);
              centralText := toFixed0 (central data * 100) +:+ "/100";
              cultureClass := getScoreClass (culture data);
              cultureText := toFixed0 (culture data * 100) +:+ "/100" |}
  end.

(** *** Channels, buckets and hexadecimal colours *)

(** One channel of [getScaleColor], and the template of its result. *)
Definition channel (start end_ value : Q) : Z :=
  round (start + (end_ - start) * value).

Definition rgbString (r g b : Z) : string :=
  "rgb(" +:+ to_string r +:+ ", " +:+ to_string g +:+ ", " +:+ to_string b +:+ ")".

(** The number of thresholds of [getPriceColor] that a price exceeds. *)
Definition priceBucket (v : Q) : nat :=
  length (filter (λ t, gt v t) (tail priceBreakPoints)).

(** The [#rrggbb] notation of a colour with channels in 0..255. *)
Definition hexDigit (n : Z) : string :=
  default "?" (["0"; "1"; "2"; "3"; "4"; "5"; "6"; "7"; "8"; "9"; "a"; "b";
                "c"; "d"; "e"; "f"] !! Z.to_nat n).

Definition cssHex (r g b : Z) : string :=
  "#" +:+ hexDigit (r / 16) +:+ hexDigit (r mod 16)
      +:+ hexDigit (g / 16) +:+ hexDigit (g mod 16)
      +:+ hexDigit (b / 16) +:+ hexDigit (b mod 16).

(** Whether a handler returned normally. *)
Definition returned {A : Type} (r : outcome A) : bool :=
  match r with Ret _ => true | Throw _ => false end.

(** Whether the handler of every click on a mode button in a sequence of
    events returned normally. *)
Fixpoint modeClicksReturn (env : Env) (pg : Page) (es : list Event) : bool :=
  match es with
  | [] => true
  | e :: es =>
      match e with
      | ModeClick _ => returned (dispatch env pg e).1
      | _ => true
      end
      && modeClicksReturn env (dispatch env pg e).2 es
  end.




(** The events of a sequence, by kind. *)
Definition zoomsOf (es : list Event) : list Q :=
  omap (λ e, match e with ZoomEnd z => Some z | _ => None end) es.

Definition clicksOf (es : list Event) : list Feature :=
  omap (λ e, match e with BoroughClick f => Some f | _ => None end) es.

Definition pricesOf (es : list Event) : list Z :=
  omap (λ e, match e with PriceInput p => Some p | _ => None end) es.

Definition yearsOf (es : list Event) : list Z :=
  omap (λ e, match e with YearChange y => Some y | _ => None end) es.

Definition typesOf (es : list Event) : list string :=
  omap (λ e, match e with TypeChange t => Some t | _ => None end) es.

Definition modesOf (es : list Event) : list string :=
  omap (λ e, match e with ModeClick m => Some m | _ => None end) es.

(** ** Sample data

    A record with two price entries for 2025, two postcode features (one
    without a record) and a borough, used to evaluate the script. *)
Definition sampleRecord : MetricRecord :=
  {| prices := {[ 2025%Z := {[ "detached" := 900000; "flat" := 500000 ]} ]};
     crime := 0.5; central := 0.25; culture := 0.75;
     summary := "Real Market Data: E1 (Source: CSV)" |}.

Definition sampleData : gmap string MetricRecord :=
  {[ "E1" := sampleRecord ]}.

Definition square (x y : Q) : list (list (Q * Q)) :=
  [[(x, y); (x + 1, y); (x + 1, y + 1); (x, y + 1); (x, y)]].

Definition samplePostcodes : list Feature :=
  [ {| name := "E1"; geometry := square 0 0; labelMarker := None |};
    {| name := "E2"; geometry := square 5 5; labelMarker := None |} ].

Definition sampleBorough : Feature :=
  {| name := "Hackney"; geometry := square 0 0; labelMarker := None |}.

Definition sampleState : State := initialState sampleData samplePostcodes.

(** A stand-in for [turf] that is exact on rectangles parallel to the
    axes: the centre of the bounding box, and containment in the bounding
    box of the polygon.  On a geometry without coordinates there is no
    bounding box and the call throws. *)
Definition bbox (f : Feature) : option (Q * Q * Q * Q) :=
  match concat (geometry f) with
  | [] => None
  | (x, y) :: rest =>
      Some (fold_left
              (λ '(x0, y0, x1, y1) '(px, py),
                 (Qmin x0 px, Qmin y0 py, Qmax x1 px, Qmax y1 py))
              rest (x, y, x, y))
  end.

Definition boxTurf : Turf :=
  {| center := λ f,
       match bbox f with
       | Some (x0, y0, x1, y1) => Ret ((x0 + x1) / 2, (y0 + y1) / 2)
       | None => Throw (Error "no coordinates")
       end;
     booleanPointInPolygon := λ '(px, py) polygon,
       match bbox polygon with
       | Some (x0, y0, x1, y1) =>
           Ret (ge px x0 && ge x1 px && ge py y0 && ge y1 py)
       | None => Throw (Error "no coordinates")
       end |}.

(** A page that loads [turf] and defines no other global function. *)
Definition sampleEnv : Env :=
  {| turf := Some boxTurf; foreign := λ _, None |}.

(** A borough whose polygon has no ring. *)
Definition emptyBorough : Feature :=
  {| name := "Void"; geometry := []; labelMarker := None |}.

(** A region named like a member of [Object.prototype], and a borough
    away from the sample postcode ["E1"]. *)
Definition inheritedFeature : Feature :=
  {| name := "constructor"; geometry := square 7 7; labelMarker := None |}.


(** The price slider sets [maxPrice], script.js:59-63. *)
Definition withMaxPrice (p : Q) (s : State) : State :=
  {| boroughData := boroughData s; currentYear := currentYear s;
     currentType := currentType s; maxPrice := p;
     currentMode := currentMode s; currentZoom := currentZoom s;
     activeBoroughGeometry := activeBoroughGeometry s;
     postcodeLayer := postcodeLayer s; leafletMap := leafletMap s |}.

(** A generator that gives every name the same scores and no prices,
    the real prices of one postcode, and the page loaded from them. *)
Definition sampleMock (name : string) : MetricRecord :=
  {| prices := ∅; crime := 0.5; central := 0.25; culture := 0.75;
     summary := "Mock: " +:+ name |}.

Definition sampleReal : gmap string (gmap Z (gmap string Q)) :=
  {[ "E1" := {[ 2025%Z := {[ "detached" := 900000; "flat" := 500000 ]} ]} ]}.

Definition sampleBoroughs : list Feature :=
  [ sampleBorough;
    {| name := "Camden"; geometry := square 5 5; labelMarker := None |};
    {| name := ""; geometry := square 9 9; labelMarker := None |} ].

Definition samplePage : Page :=
  initialPage sampleReal sampleMock sampleBoroughs samplePostcodes.

(** ** Properties *)

(** *** Comparisons and rounding *)

Lemma gt_true (x y : Q) : gt x y = true ↔ y < x.
Proof.
  unfold gt. rewrite Qgt_alt.
  destruct (x ?= y); split; intro H; congruence.
Qed.

Lemma gt_false (x y : Q) : gt x y = false ↔ x <= y.
Proof.
  rewrite <- not_true_iff_false, gt_true. split.
  - apply Qnot_lt_le.
  - apply Qle_not_lt.
Qed.

Lemma ge_true (x y : Q) : ge x y = true ↔ y <= x.
Proof.
  unfold ge. rewrite Qle_alt.
  rewrite <- (Qcompare_antisym x y).
  destruct (x ?= y); simpl; split; intro H; congruence.
Qed.

Lemma ge_false (x y : Q) : ge x y = false ↔ x < y.
Proof.
  rewrite <- not_true_iff_false, ge_true. split.
  - apply Qnot_le_lt.
  - apply Qlt_not_le.
Qed.

Global Instance gt_proper : Proper (Qeq ==> Qeq ==> eq) gt.
Proof. intros x x' Hx y y' Hy. unfold gt. by rewrite Hx, Hy. Qed.

Global Instance round_proper : Proper (Qeq ==> eq) round.
Proof. intros x y H. unfold round. by rewrite H. Qed.

Global Instance getPriceColor_proper : Proper (Qeq ==> eq) getPriceColor.
Proof.
  intros x y H. unfold getPriceColor.
  assert (E : ∀ t, gt x t = gt y t) by (intros t; by rewrite H).
  by rewrite !E.
Qed.

Global Instance getScaleColor_proper :
  Proper (Qeq ==> eq ==> eq ==> eq) getScaleColor.
Proof.
  intros v v' Hv [[s0 s1] s2] ? <- [[e0 e1] e2] ? <-.
  unfold getScaleColor. by rewrite Hv.
Qed.

(** *** The price ramp *)

(** The chain of ternaries is the scan of the table. *)
Lemma getPriceColor_rampLookup (v : Q) :
  getPriceColor v = rampLookup priceTable v.
Proof.
  unfold getPriceColor, priceTable, priceBreakPoints, priceColors.
  cbn [zip zip_with reverse rev_append rampLookup].
  by destruct (gt v 0).
Qed.

(** In a table whose thresholds decrease, the scan returns the colour of
    the entry that [v] exceeds while exceeding no higher one. *)
Lemma rampLookup_first (table : list (Q * string)) (v : Q) i t c :
  table !! i = Some (t, c) → t < v →
  Forall (λ e, v <= e.1) (take i table) →
  rampLookup table v = c.
Proof.
  revert i. induction table as [|[t0 c0] rest IH]; intros [|i] Hi Hv Hpre;
    simplify_eq/=.
  - apply gt_true in Hv. by rewrite Hv.
  - apply Forall_cons in Hpre as [Ht0 Hpre]. simpl in Ht0.
    apply gt_false in Ht0. rewrite Ht0. by eapply IH.
Qed.

(** Scanning a table from its end is taking the last entry exceeded. *)
Lemma rampLookup_last (table : list (Q * string)) (v : Q) :
  rampLookup (reverse table) v
  = match last (filter (λ e, gt v e.1) table) with
    | Some (_, c) => c
    | None => "#fed7aa"
    end.
Proof.
  induction table as [|[t c] table IH] using rev_ind; [done|].
  rewrite reverse_snoc, filter_app. simpl.
  destruct (gt v t) eqn:E.
  - rewrite filter_cons_True by (simpl; by rewrite E).
    by rewrite filter_nil, last_snoc.
  - rewrite filter_cons_False by (simpl; rewrite E; tauto).
    rewrite filter_nil, app_nil_r. exact IH.
Qed.

(** C3, as the claim states it, fails: 700000 strictly exceeds the break
    points 0, 300000, 450000 and 600000; the colour of the lowest of them
    is ["#fed7aa"], and [getPriceColor] returns ["#f97316"], the colour of
    the highest. *)
Lemma price_ramp_not_lowest :
  exceeded 700000
  = [(0, "#fed7aa"); (300000, "#fdba74"); (450000, "#fb923c");
     (600000, "#f97316")]
  ∧ lowestExceededColor 700000 = "#fed7aa"
  ∧ getPriceColor 700000 = "#f97316"
  ∧ getPriceColor 700000 ≠ lowestExceededColor 700000.
Proof. repeat split; try reflexivity. discriminate. Qed.

(** C3, amended.  For every price value [v], [getPriceColor v] is the
    colour of the highest break point that [v] strictly exceeds, found by
    scanning the break points from the highest (1500000) down to the
    lowest with a strict greater-than.  A value equal to a threshold gets
    the colour of the next lower bucket, and every [v <= 300000] gets the
    palest colour ["#fed7aa"]. *)
Theorem price_ramp_chain (v : Q) :
  Sorted Qlt priceBreakPoints
  ∧ getPriceColor v = highestExceededColor v
  ∧ getPriceColor v = rampLookup priceTable v
  ∧ (∀ i t c,
       priceTable !! i = Some (t, c) → t < v →
       (∀ j t' c', priceTable !! j = Some (t', c') → (j < i)%nat → v <= t') →
       getPriceColor v = c)
  ∧ (∀ i t c t' c',
       priceTable !! i = Some (t, c) → priceTable !! S i = Some (t', c') →
       v == t → getPriceColor v = c')
  ∧ (v <= 300000 → getPriceColor v = "#fed7aa").
Proof.
  split; [repeat constructor|].
  split; [rewrite getPriceColor_rampLookup; apply rampLookup_last|].
  split; [apply getPriceColor_rampLookup|]. split; [|split].
  - intros i t c Hi Hv Habove. rewrite getPriceColor_rampLookup.
    eapply rampLookup_first; [exact Hi|exact Hv|].
    apply Forall_forall. intros [t' c'] Hin.
    apply list_elem_of_lookup in Hin as [j Hj].
    apply lookup_take_Some in Hj as [Hj Hlt]. by eapply Habove.
  - intros i t c t' c' Hi Hi' Hv.
    rewrite (getPriceColor_proper v t Hv).
    do 7 (destruct i as [|i]; [by simplify_eq/=|]).
    by destruct i.
  - intros Hv. unfold getPriceColor.
    assert (E : ∀ t, 300000 <= t → gt v t = false).
    { intros t Ht. apply gt_false. by eapply Qle_trans. }
    rewrite !E; [done|discriminate..].
Qed.

Lemma price_ramp_chain_witness :
  getPriceColor 700000 = "#f97316" ∧ getPriceColor 600000 = "#fb923c"
  ∧ getPriceColor 300000 = "#fed7aa".
Proof.
  split; [|split].
  - destruct (price_ramp_chain 700000) as (_ & _ & _ & Hfirst & _).
    apply (Hfirst 4%nat 600000 "#f97316").
    + reflexivity.
    + reflexivity.
    + intros j t' c' Hj Hlt.
      do 4 (destruct j as [|j]; [simplify_eq/=; discriminate|]). lia.
  - destruct (price_ramp_chain 600000) as (_ & _ & _ & _ & Heq & _).
    apply (Heq 4%nat 600000 "#f97316" 450000 "#fb923c"); reflexivity.
  - destruct (price_ramp_chain 300000) as (_ & _ & _ & _ & _ & Hlow).
    apply Hlow. discriminate.
Defined.

(** *** StyleResolver in price mode *)

Lemma getFeatureStyle_unknown s f o w b fo :
  boroughData s !! name f = None →
  getFeatureStyle s f o w b fo =
    {| fillColor := "#ccc"; weight := w; opacity := 1; color := b;
       dashArray := None; fillOpacity := 0.2; interactive := None |}.
Proof. intros H. unfold getFeatureStyle. by rewrite H. Qed.

Lemma getFeatureStyle_price s f data o w b fo :
  boroughData s !! name f = Some data → currentMode s = "price" →
  getFeatureStyle s f o w b fo =
    {| fillColor := if gt (priceValue s data) (maxPrice s) then "#431407"
                    else getPriceColor (priceValue s data);
       weight := w; opacity := 1; color := b; dashArray := Some "";
       fillOpacity := fo; interactive := None |}.
Proof.
  intros Hd Hm. unfold getFeatureStyle. rewrite Hd.
  by rewrite (decide_True _ _ Hm).
Qed.

(** Below the ceiling the fill is the colour of the ramp. *)
Lemma getFeatureStyle_price_within s f data o w b fo v :
  boroughData s !! name f = Some data → currentMode s = "price" →
  priceValue s data == v → v <= maxPrice s →
  fillColor (getFeatureStyle s f o w b fo) = getPriceColor v.
Proof.
  intros Hd Hm Hv Hle. rewrite (getFeatureStyle_price s f data) by done.
  simpl.
  assert (E : gt (priceValue s data) (maxPrice s) = false).
  { rewrite Hv. by apply gt_false. }
  rewrite E. by apply getPriceColor_proper.
Qed.

(** *** The legend *)

(** Every value of a bucket has the colour of the bucket. *)
Lemma getPriceColor_bucket i bp c v :
  priceBreakPoints !! i = Some bp → priceColors !! i = Some c →
  bp < v → (∀ bp', priceBreakPoints !! S i = Some bp' → v <= bp') →
  getPriceColor v = c.
Proof.
  intros Hbp Hc Hlo Hhi.
  assert (Hup : ∀ bp' t, priceBreakPoints !! S i = Some bp' → bp' <= t →
                          gt v t = false).
  { intros bp' t Hbp' Ht. apply gt_false.
    eapply Qle_trans; [by apply Hhi|done]. }
  assert (Hdown : ∀ t, t <= bp → gt v t = true).
  { intros t Ht. apply gt_true. by eapply Qle_lt_trans. }
  unfold getPriceColor.
  do 8 (destruct i as [|i];
        [ simplify_eq/=;
          repeat first
            [ erewrite Hup by (first [reflexivity | discriminate])
            | rewrite Hdown by discriminate ];
          reflexivity |]).
  by simplify_eq/=.
Qed.

Lemma legendEntries_price s :
  currentMode s = "price" →
  legendEntries s =
    zip ((λ g, getPriceColor (g + 1)) <$> grades) labels.
Proof. intros Hm. unfold legendEntries. by rewrite (decide_True _ _ Hm). Qed.

(** C1, as the claim states it, fails: a swatch is not the colour that
    [getFeatureStyle] renders for every value of its bucket.  With the
    price ceiling at 600000, a region of value 700000 is in the bucket of
    the break point 600000, whose swatch is ["#f97316"], and is filled
    with ["#431407"]. *)
Lemma legend_swatch_overflow :
  currentMode (withMaxPrice 600000 sampleState) = "price"
  ∧ priceBreakPoints !! 3%nat = Some 600000
  ∧ priceBreakPoints !! 4%nat = Some 800000
  ∧ (legendEntries (withMaxPrice 600000 sampleState)).*1 !! 3%nat
    = Some "#f97316"
  ∧ boroughData (withMaxPrice 600000 sampleState) !! "E1" = Some sampleRecord
  ∧ priceValue (withMaxPrice 600000 sampleState) sampleRecord == 700000
  ∧ 600000 < 700000 ∧ 700000 <= 800000
  ∧ fillColor (getFeatureStyle (withMaxPrice 600000 sampleState)
                 {| name := "E1"; geometry := square 0 0; labelMarker := None |}
                 0.9 1 "#eee" 0.8) = "#431407"
  ∧ fillColor (getFeatureStyle (withMaxPrice 600000 sampleState)
                 {| name := "E1"; geometry := square 0 0; labelMarker := None |}
                 0.9 1 "#eee" 0.8) ≠ "#f97316".
Proof. repeat split; vm_compute; first [reflexivity | discriminate]. Qed.

(** C1, amended.  In price mode the legend has exactly 8 (swatch, label)
    entries, one per break point of the price ramp from the lowest to the
    highest; the i-th swatch is [getPriceColor (breakpoint_i + 1)], and it
    is the colour of every value of the i-th bucket: the colour the ramp
    gives it, and the fill [getFeatureStyle] renders for a region with
    that value when the value does not exceed the price ceiling. *)
Theorem legend_price_swatches (s : State) :
  currentMode s = "price" →
  length (legendEntries s) = 8%nat
  ∧ (legendEntries s).*1 = (λ bp, getPriceColor (bp + 1)) <$> priceBreakPoints
  ∧ (legendEntries s).*1 = priceColors
  ∧ (∀ i bp swatch v,
       priceBreakPoints !! i = Some bp →
       (legendEntries s).*1 !! i = Some swatch →
       bp < v → (∀ bp', priceBreakPoints !! S i = Some bp' → v <= bp') →
       getPriceColor v = swatch
       ∧ (∀ f data o w b fo,
            boroughData s !! name f = Some data →
            priceValue s data == v → v <= maxPrice s →
            fillColor (getFeatureStyle s f o w b fo) = swatch)).
Proof.
  intros Hm. rewrite (legendEntries_price s Hm).
  split; [reflexivity|]. split; [reflexivity|]. split; [reflexivity|].
  intros i bp swatch v Hbp Hsw Hlo Hhi.
  assert (Hc : getPriceColor v = swatch).
  { eapply getPriceColor_bucket; [exact Hbp|exact Hsw|exact Hlo|exact Hhi]. }
  split; [exact Hc|].
  intros f data o w b fo Hd Hv Hle. rewrite <- Hc.
  by eapply getFeatureStyle_price_within.
Qed.

Lemma legend_price_swatches_witness :
  length (legendEntries sampleState) = 8%nat
  ∧ (legendEntries sampleState).*1 !! 3%nat = Some "#f97316"
  ∧ getPriceColor 700000 = "#f97316".
Proof.
  destruct (legend_price_swatches sampleState eq_refl) as (Hlen & _ & _ & Hb).
  split; [exact Hlen|]. split; [reflexivity|].
  apply (Hb 3%nat 600000 "#f97316" 700000); [reflexivity..|].
  intros bp' Hbp'. simplify_eq/=. discriminate.
Defined.

(** The legend iterates over its own list of grades, which is not the
    list of break points of the ramp: two of them differ, each inside
    the bucket of the break point it replaces. *)
Lemma legend_grades_in_buckets :
  grades ≠ priceBreakPoints
  ∧ Forall2 (λ g bp, getPriceColor (g + 1) = getPriceColor (bp + 1))
            grades priceBreakPoints.
Proof. split; [discriminate|]. repeat constructor. Qed.

(** C4.  In price mode, a region whose resolved value strictly exceeds
    [maxPrice] is filled with the darkest colour ["#431407"] whatever
    bucket the value is in; with a ceiling of 600000 and a value of 700000
    the fill is ["#431407"] and not the colour ["#f97316"] of the bucket. *)
Theorem price_overflow (s : State) (f : Feature) (data : MetricRecord)
    (o w : Q) (b : string) (fo : Q) :
  boroughData s !! name f = Some data → currentMode s = "price" →
  (maxPrice s < priceValue s data →
     fillColor (getFeatureStyle s f o w b fo) = "#431407")
  ∧ (maxPrice s == 600000 → priceValue s data == 700000 →
     fillColor (getFeatureStyle s f o w b fo) = "#431407"
     ∧ getPriceColor (priceValue s data) = "#f97316").
Proof.
  intros Hd Hm.
  assert (Hover : maxPrice s < priceValue s data →
                  fillColor (getFeatureStyle s f o w b fo) = "#431407").
  { intros Hlt. rewrite (getFeatureStyle_price s f data) by done. simpl.
    apply gt_true in Hlt. by rewrite Hlt. }
  split; [exact Hover|].
  intros Hmax Hv. split.
  - apply Hover. rewrite Hmax, Hv. reflexivity.
  - by rewrite (getPriceColor_proper _ _ Hv).
Qed.

Lemma price_overflow_witness :
  fillColor (getFeatureStyle (withMaxPrice 600000 sampleState)
               {| name := "E1"; geometry := square 0 0; labelMarker := None |}
               0.9 1 "#eee" 0.8) = "#431407".
Proof.
  apply (proj1 (price_overflow (withMaxPrice 600000 sampleState)
                  {| name := "E1"; geometry := square 0 0; labelMarker := None |}
                  sampleRecord 0.9 1 "#eee" 0.8 eq_refl eq_refl)).
  vm_compute. reflexivity.
Defined.

(** *** The resolved price value *)

Global Instance Qsum_perm : Proper ((≡ₚ) ==> Qeq) Qsum.
Proof.
  intros l1 l2 H. induction H as [|x l1 l2 _ IH|x y l|l1 l2 l3 _ IH1 _ IH2]; simpl.
  - reflexivity.
  - by rewrite IH.
  - rewrite !Qplus_assoc. by rewrite (Qplus_comm y x).
  - by rewrite IH1.
Qed.

Lemma fold_left_Qplus (l : list Q) (a : Q) :
  fold_left Qplus l a == a + Qsum l.
Proof.
  revert a. induction l as [|x l IH]; intros a; simpl.
  - by rewrite Qplus_0_r.
  - rewrite IH. by rewrite Qplus_assoc.
Qed.

(** What [reduce] and the division compute is the arithmetic mean. *)
Lemma priceValue_all s data (pm : gmap string Q) :
  prices data !! currentYear s = Some pm →
  currentType s = "all" →
  priceValue s data == mean (map_to_list pm).*2.
Proof.
  intros Hy Ht. unfold priceValue. rewrite Hy, (decide_True _ _ Ht).
  destruct ((map_to_list pm).*2) as [|x l] eqn:E.
  - reflexivity.
  - rewrite decide_False by done. unfold mean.
    by rewrite fold_left_Qplus, Qplus_0_l.
Qed.

(** The entries of a map whose keys are among [ks], listed along [ks]. *)
Lemma map_to_list_along (m : gmap string Q) (ks : list string) :
  NoDup ks → (∀ k, is_Some (m !! k) → k ∈ ks) →
  (map_to_list m).*2 ≡ₚ omap (λ k, m !! k) ks.
Proof.
  intros Hnd Hdom.
  assert (E : omap (λ k, m !! k) ks = (omap (λ k, pair k <$> m !! k) ks).*2).
  { clear. induction ks as [|k ks IH]; csimpl; [done|].
    destruct (m !! k); csimpl; by rewrite IH. }
  rewrite E. apply fmap_Permutation. apply NoDup_Permutation.
  - apply NoDup_map_to_list.
  - apply (NoDup_fmap_1 fst).
    eapply sublist_NoDup; [exact Hnd|].
    clear. induction ks as [|k ks IH]; csimpl; [done|].
    destruct (m !! k); csimpl; by constructor.
  - intros [k x]. rewrite elem_of_map_to_list, list_elem_of_omap. split.
    + intros Hk. exists k. split; [by apply Hdom|]. by rewrite Hk.
    + intros (k' & _ & Hk'). destruct (m !! k') eqn:E'; by simplify_eq/=.
Qed.

Lemma mean_perm (l1 l2 : list Q) : l1 ≡ₚ l2 → mean l1 == mean l2.
Proof.
  intros H. unfold mean.
  destruct l1 as [|x l1], l2 as [|y l2].
  - reflexivity.
  - by apply Permutation_nil_cons in H.
  - symmetry in H. by apply Permutation_nil_cons in H.
  - rewrite (Permutation_length H). by rewrite (Qsum_perm _ _ H).
Qed.

(** C7.  In price mode the resolved value is 0 when the record has no
    prices for the selected year; with [currentType = "all"] it is the
    arithmetic mean of the entries present for that year (0 when there is
    none), which is the mean over the property types present when the keys
    are property types; with a specific type it is that type's entry, or 0
    when absent.  For 2025 with prices [{detached: 900000, flat: 500000}]
    the value is 700000, whose bucket colour is ["#f97316"]. *)
Theorem price_value_resolution (s : State) (data : MetricRecord) :
  (prices data !! currentYear s = None → priceValue s data = 0)
  ∧ (∀ pm : gmap string Q,
       prices data !! currentYear s = Some pm →
       (currentType s = "all" →
          priceValue s data == mean (map_to_list pm).*2
          ∧ (pm = ∅ → priceValue s data = 0)
          ∧ ((∀ k, is_Some (pm !! k) → k ∈ propertyTypes) →
             priceValue s data == mean (presentEntries pm)))
       ∧ (currentType s ≠ "all" →
          priceValue s data = default 0 (pm !! currentType s)))
  ∧ (currentYear s = 2025%Z → currentType s = "all" →
     prices data !! 2025%Z
       = Some {[ "detached" := 900000; "flat" := 500000 ]} →
     priceValue s data == 700000
     ∧ getPriceColor (priceValue s data) = "#f97316").
Proof.
  split; [|split].
  - intros Hy. unfold priceValue. by rewrite Hy.
  - intros pm Hy. split.
    + intros Ht. split; [by apply priceValue_all|]. split.
      * intros ->. unfold priceValue. by rewrite Hy, (decide_True _ _ Ht).
      * intros Hdom. rewrite (priceValue_all s data pm Hy Ht).
        apply mean_perm, map_to_list_along; [|exact Hdom].
        by apply (bool_decide_unpack _).
    + intros Ht. unfold priceValue. by rewrite Hy, (decide_False _ _ Ht).
  - intros Hyear Ht Hp. rewrite <- Hyear in Hp.
    assert (Hv : priceValue s data == 700000).
    { rewrite (priceValue_all s data _ Hp Ht). vm_compute. reflexivity. }
    split; [exact Hv|]. by rewrite (getPriceColor_proper _ _ Hv).
Qed.

Lemma price_value_resolution_witness :
  priceValue sampleState sampleRecord == 700000
  ∧ priceValue sampleState sampleRecord
    == mean (presentEntries {[ "detached" := 900000; "flat" := 500000 ]}).
Proof.
  pose proof (price_value_resolution sampleState sampleRecord) as (_ & Hpm & Hex).
  split.
  - apply (Hex eq_refl eq_refl eq_refl).
  - apply (Hpm {[ "detached" := 900000; "flat" := 500000 ]} eq_refl);
      [reflexivity|].
    intros k [x Hk]. unfold propertyTypes.
    destruct (decide (k = "detached")) as [->|Hd]; [by repeat constructor|].
    destruct (decide (k = "flat")) as [->|Hf]; [by repeat constructor|].
    rewrite lookup_insert_ne, lookup_singleton_ne in Hk by done. done.
Defined.

(** Missing data, on the names that are no members of
    [Object.prototype].  A region without a record gets the neutral style
    (fill ["#ccc"], opacity 0.2 of the fill); for a record that lacks the
    selected year, or the selected type in that year, the value is 0 and
    the region is styled as any region of value 0. *)
Theorem missing_data_styles (s : State) (f : Feature) (o w : Q) (b : string)
    (fo : Q) :
  (boroughData s !! name f = None →
     getFeatureStyle s f o w b fo =
       {| fillColor := "#ccc"; weight := w; opacity := 1; color := b;
          dashArray := None; fillOpacity := 0.2; interactive := None |})
  ∧ (∀ data,
       boroughData s !! name f = Some data → currentMode s = "price" →
       prices data !! currentYear s = None
       ∨ (∃ pm : gmap string Q,
            prices data !! currentYear s = Some pm
            ∧ currentType s ≠ "all" ∧ pm !! currentType s = None) →
       priceValue s data = 0
       ∧ getFeatureStyle s f o w b fo =
           {| fillColor := if gt 0 (maxPrice s) then "#431407" else "#fed7aa";
              weight := w; opacity := 1; color := b; dashArray := Some "";
              fillOpacity := fo; interactive := None |}).
Proof.
  split; [apply getFeatureStyle_unknown|].
  intros data Hd Hm Hmiss.
  assert (Hv : priceValue s data = 0).
  { unfold priceValue. destruct Hmiss as [Hy|(pm & Hy & Ht & Hk)].
    - by rewrite Hy.
    - by rewrite Hy, (decide_False _ _ Ht), Hk. }
  split; [exact Hv|].
  rewrite (getFeatureStyle_price s f data) by done. by rewrite Hv.
Qed.

Lemma missing_data_styles_witness :
  getFeatureStyle sampleState
    {| name := "E2"; geometry := square 5 5; labelMarker := None |}
    0.9 1 "#eee" 0.8
  = {| fillColor := "#ccc"; weight := 1; opacity := 1; color := "#eee";
       dashArray := None; fillOpacity := 0.2; interactive := None |}.
Proof.
  apply (proj1 (missing_data_styles sampleState
                  {| name := "E2"; geometry := square 5 5; labelMarker := None |}
                  0.9 1 "#eee" 0.8)).
  vm_compute. reflexivity.
Defined.

(** On a name that has a record or is no member of [Object.prototype],
    the read of [boroughData] is the lookup. *)
Lemma getFeatureStyleObject_lookup s f o w b fo :
  is_Some (boroughData s !! name f) ∨ name f ∉ objectPrototype →
  getFeatureStyleObject s f o w b fo = Ret (getFeatureStyle s f o w b fo).
Proof.
  intros H. unfold getFeatureStyleObject, getProperty.
  destruct (boroughData s !! name f) as [data|]; [done|].
  destruct H as [[? [=]]|H]. by rewrite decide_False.
Qed.

(** On a member name of [Object.prototype] without a record,
    [getFeatureStyle] throws in price mode, paints the colour of [NaN] in
    the score modes, and in no mode returns the neutral style. *)
Lemma getFeatureStyleObject_inherited s f o w b fo :
  boroughData s !! name f = None → name f ∈ objectPrototype →
  (currentMode s = "price" →
     ∃ msg, getFeatureStyleObject s f o w b fo = Throw (TypeError msg))
  ∧ (currentMode s ∈ ["crime"; "central"; "culture"] →
     getFeatureStyleObject s f o w b fo =
       Ret {| fillColor := "rgb(NaN, NaN, NaN)"; weight := w; opacity := 1;
              color := b; dashArray := Some ""; fillOpacity := fo;
              interactive := None |})
  ∧ getFeatureStyleObject s f o w b fo ≠
      Ret {| fillColor := "#ccc"; weight := w; opacity := 1; color := b;
             dashArray := None; fillOpacity := 0.2; interactive := None |}.
Proof.
  intros Hd Hn. unfold getFeatureStyleObject, getProperty.
  rewrite Hd, decide_True by done. split; [|split].
  - intros Hm. rewrite decide_True by done. by eexists.
  - intros Hm.
    repeat (apply elem_of_cons in Hm as [Hm|Hm]); try (by rewrite Hm).
    by apply elem_of_nil in Hm.
  - destruct (decide (currentMode s = "price")); [done|].
    intros H. injection H as H. discriminate.
Qed.

(** C8.  The claim holds of [getFeatureStyle] on every region but those
    named like a member of [Object.prototype].  A region without a record
    whose name is no such member gets the neutral style, and a record
    that lacks the selected year, or the selected type in that year,
    gives the value 0 and the style of a region of value 0.  A region
    without a record whose name is such a member (["constructor"],
    ["toString"], ...) is not given the neutral style: [boroughData[name]]
    is the inherited member, and [getFeatureStyle] throws a [TypeError] in
    price mode and paints ["rgb(NaN, NaN, NaN)"] in the score modes. *)
Theorem missing_record_inherited_member (s : State) (f : Feature) (o w : Q)
    (b : string) (fo : Q) :
  (boroughData s !! name f = None → name f ∉ objectPrototype →
     getFeatureStyleObject s f o w b fo =
       Ret {| fillColor := "#ccc"; weight := w; opacity := 1; color := b;
              dashArray := None; fillOpacity := 0.2; interactive := None |})
  ∧ (boroughData s !! name f = None → name f ∈ objectPrototype →
       (currentMode s = "price" →
          ∃ msg, getFeatureStyleObject s f o w b fo = Throw (TypeError msg))
       ∧ (currentMode s ∈ ["crime"; "central"; "culture"] →
          getFeatureStyleObject s f o w b fo =
            Ret {| fillColor := "rgb(NaN, NaN, NaN)"; weight := w;
                   opacity := 1; color := b; dashArray := Some "";
                   fillOpacity := fo; interactive := None |})
       ∧ getFeatureStyleObject s f o w b fo ≠
           Ret {| fillColor := "#ccc"; weight := w; opacity := 1; color := b;
                  dashArray := None; fillOpacity := 0.2;
                  interactive := None |})
  ∧ (∀ data,
       boroughData s !! name f = Some data → currentMode s = "price" →
       prices data !! currentYear s = None
       ∨ (∃ pm : gmap string Q,
            prices data !! currentYear s = Some pm
            ∧ currentType s ≠ "all" ∧ pm !! currentType s = None) →
       priceValue s data = 0
       ∧ getFeatureStyleObject s f o w b fo =
           Ret {| fillColor := if gt 0 (maxPrice s) then "#431407"
                               else "#fed7aa";
                  weight := w; opacity := 1; color := b; dashArray := Some "";
                  fillOpacity := fo; interactive := None |}).
Proof.
  split; [|split].
  - intros Hd Hn. rewrite getFeatureStyleObject_lookup by by right.
    by rewrite getFeatureStyle_unknown.
  - apply getFeatureStyleObject_inherited.
  - intros data Hd Hm Hmiss.
    assert (Hv : priceValue s data = 0).
    { unfold priceValue. destruct Hmiss as [Hy|(pm & Hy & Ht & Hk)].
      - by rewrite Hy.
      - by rewrite Hy, (decide_False _ _ Ht), Hk. }
    split; [exact Hv|].
    rewrite getFeatureStyleObject_lookup by (left; by rewrite Hd).
    rewrite (getFeatureStyle_price s f data) by done. by rewrite Hv.
Qed.

Lemma missing_record_inherited_member_witness :
  (∃ msg, getFeatureStyleObject sampleState inheritedFeature 0.9 1 "#eee" 0.8
          = Throw (TypeError msg))
  ∧ getFeatureStyleObject (set_currentMode "crime" sampleState)
      inheritedFeature 0.9 1 "#eee" 0.8
    = Ret {| fillColor := "rgb(NaN, NaN, NaN)"; weight := 1; opacity := 1;
             color := "#eee"; dashArray := Some ""; fillOpacity := 0.8;
             interactive := None |}.
Proof.
  split.
  - apply (proj1 (proj2 (missing_record_inherited_member sampleState
                           inheritedFeature 0.9 1 "#eee" 0.8))).
    + reflexivity.
    + by apply (bool_decide_unpack _).
    + reflexivity.
  - apply (proj1 (proj2 (missing_record_inherited_member
                           (set_currentMode "crime" sampleState)
                           inheritedFeature 0.9 1 "#eee" 0.8))).
    + reflexivity.
    + by apply (bool_decide_unpack _).
    + by apply (bool_decide_unpack _).
Defined.

(** *** The continuous ramp *)

(** C9, as the claim states it, fails: the value is not clamped.  At 2
    the crime ramp is not its end colour, and at -1 it is not white. *)
Lemma continuous_ramp_not_clamped :
  1 <= 2 ∧ getCrimeColor 2 = "rgb(185, -179, -179)"
  ∧ getCrimeColor 2 ≠ "rgb(220, 38, 38)"
  ∧ -1 <= 0 ∧ getCrimeColor (-1) = "rgb(290, 472, 472)"
  ∧ getCrimeColor (-1) ≠ "rgb(255, 255, 255)".
Proof. repeat split; try discriminate; vm_compute; congruence. Qed.

(** C9, amended.  The continuous ramp interpolates the value as given,
    without clamping: each channel is [round(start + (end - start) * value)].
    At value 1 the colour is the end colour of the mode exactly, and at
    value 0 it is the start colour, white. *)
Theorem continuous_ramp_endpoints (v : Q) :
  (v == 1 →
     getCrimeColor v = "rgb(220, 38, 38)"
     ∧ getCentralColor v = "rgb(37, 99, 235)"
     ∧ getCultureColor v = "rgb(217, 119, 6)")
  ∧ (v == 0 →
     getCrimeColor v = "rgb(255, 255, 255)"
     ∧ getCentralColor v = "rgb(255, 255, 255)"
     ∧ getCultureColor v = "rgb(255, 255, 255)")
  ∧ (∀ s0 s1 s2 e0 e1 e2,
       getScaleColor v (s0, s1, s2) (e0, e1, e2) =
         "rgb(" +:+ to_string (round (s0 + (e0 - s0) * v)) +:+ ", "
                +:+ to_string (round (s1 + (e1 - s1) * v)) +:+ ", "
                +:+ to_string (round (s2 + (e2 - s2) * v)) +:+ ")").
Proof.
  split; [|split].
  - intros Hv. unfold getCrimeColor, getCentralColor, getCultureColor.
    rewrite !(getScaleColor_proper v 1 Hv _ _ eq_refl _ _ eq_refl).
    repeat split; vm_compute; reflexivity.
  - intros Hv. unfold getCrimeColor, getCentralColor, getCultureColor.
    rewrite !(getScaleColor_proper v 0 Hv _ _ eq_refl _ _ eq_refl).
    repeat split; vm_compute; reflexivity.
  - reflexivity.
Qed.

Lemma continuous_ramp_endpoints_witness :
  getCrimeColor (2 # 2) = "rgb(220, 38, 38)"
  ∧ getCultureColor (0 # 5) = "rgb(255, 255, 255)".
Proof.
  split.
  - apply (proj1 (continuous_ramp_endpoints (2 # 2))). reflexivity.
  - apply (proj1 (proj2 (continuous_ramp_endpoints (0 # 5)))). reflexivity.
Defined.

(** *** FocusFilter *)












(** *** Focus activation *)

(** [stylePostcode] reads the metric records, the view parameters and
    the focus only. *)
Lemma stylePostcode_ext env s s' f :
  boroughData s = boroughData s' → currentYear s = currentYear s' →
  currentType s = currentType s' → maxPrice s = maxPrice s' →
  currentMode s = currentMode s' →
  activeBoroughGeometry s = activeBoroughGeometry s' →
  stylePostcode env s f = stylePostcode env s' f.
Proof.
  intros Hd Hy Ht Hp Hm Hf.
  unfold stylePostcode, getFeatureStyle, priceValue.
  by rewrite Hd, Hy, Ht, Hp, Hm, Hf.
Qed.

(** When the style function returns on every path, [setStyle] returns
    and every path carries its new style. *)
Lemma setStyle_Ret styleFn l :
  Forall (λ p, ∃ st, styleFn (feature p) = Ret st) l →
  (setStyle styleFn l).1 = Ret ()
  ∧ Forall2 (λ p p', feature p' = feature p
                     ∧ styleFn (feature p) = Ret (style p'))
            l (setStyle styleFn l).2.
Proof.
  induction 1 as [|p l [st Hst] _ [IH1 IH2]]; simpl; [by split|].
  rewrite Hst. destruct (setStyle styleFn l) as [r l']. simpl in *.
  split; [done|]. by constructor.
Qed.

Lemma setStyle_Ret_inv styleFn l :
  (setStyle styleFn l).1 = Ret () →
  Forall (λ p, ∃ st, styleFn (feature p) = Ret st) l.
Proof.
  induction l as [|p l IH]; [done|]. cbn [setStyle].
  destruct (styleFn (feature p)) as [st|e] eqn:E; [|done].
  destruct (setStyle styleFn l) as [r l']. cbn in *.
  intros Hr. constructor; [by exists st|by apply IH].
Qed.

(** When the style function throws, the paths before the first one on
    which it throws are restyled and the others keep their style. *)
Lemma setStyle_Throw styleFn l e :
  (setStyle styleFn l).1 = Throw e →
  ∃ k p,
    l !! k = Some p ∧ styleFn (feature p) = Throw e
    ∧ Forall2 (λ q q', feature q' = feature q
                       ∧ styleFn (feature q) = Ret (style q'))
              (take k l) (take k (setStyle styleFn l).2)
    ∧ drop k (setStyle styleFn l).2 = drop k l.
Proof.
  induction l as [|p l IH]; [done|]. cbn [setStyle].
  destruct (styleFn (feature p)) as [st|e'] eqn:E.
  - destruct (setStyle styleFn l) as [r l']. cbn in *. intros Hr.
    destruct (IH Hr) as (k & q & Hk & Hq & Hpre & Hpost).
    exists (S k), q. split; [done|]. split; [done|]. split; [|done].
    cbn. by constructor.
  - cbn. intros [= ->]. exists 0%nat, p. repeat split; [done|constructor].
Qed.

(** C2, as the claim states it, fails: not every focus activation ends
    in the [ReferenceError].  When the restyling of the postcode layer
    throws, here on a clicked borough without coordinates, the click ends
    with that exception and the call of [updatePostcodeLabels] is not
    reached. *)
Lemma borough_click_other_error :
  foreign sampleEnv "updatePostcodeLabels" = None
  ∧ (onBoroughClick sampleEnv emptyBorough sampleState).1
    = Throw (Error "no coordinates")
  ∧ (onBoroughClick sampleEnv emptyBorough sampleState).1
    ≠ Throw (ReferenceError "updatePostcodeLabels")
  ∧ activeBoroughGeometry (onBoroughClick sampleEnv emptyBorough sampleState).2
    = Some emptyBorough.
Proof. repeat split; vm_compute; first [reflexivity | discriminate]. Qed.

(** C2, amended.  [updatePostcodeLabels] is not bound in script.js.  When
    no other script of the page binds it either, a click on a borough sets
    the focus to that borough, asks the map to fit its bounds, restyles the
    postcode layer with [stylePostcode], and never returns normally.  When
    [stylePostcode] returns on every postcode, every postcode path is given
    its new style and the click ends in the [ReferenceError] for
    [updatePostcodeLabels].  Otherwise the click ends with what
    [stylePostcode] throws on the first postcode on which it throws: the
    paths before it are restyled, the others keep their style, and
    [updatePostcodeLabels] is not called. *)
Theorem borough_click_reference_error (env : Env) (borough : Feature)
    (s : State) :
  ("updatePostcodeLabels" ∉ declared)
  ∧ (foreign env "updatePostcodeLabels" = None →
     ∃ e s',
       onBoroughClick env borough s = (Throw e, s')
       ∧ activeBoroughGeometry s' = Some borough
       ∧ calls (leafletMap s')
         = calls (leafletMap s) ++ [FitBounds borough (20, 20)%Z]
       ∧ (Forall (λ p, ∃ st, stylePostcode env s' (feature p) = Ret st)
                 (postcodeLayer s) →
          e = ReferenceError "updatePostcodeLabels"
          ∧ Forall2 (λ p p', feature p' = feature p
                             ∧ stylePostcode env s' (feature p) = Ret (style p'))
                    (postcodeLayer s) (postcodeLayer s'))
       ∧ (¬ Forall (λ p, ∃ st, stylePostcode env s' (feature p) = Ret st)
                   (postcodeLayer s) →
          ∃ k p,
            postcodeLayer s !! k = Some p
            ∧ stylePostcode env s' (feature p) = Throw e
            ∧ Forall2 (λ q q', feature q' = feature q
                               ∧ stylePostcode env s' (feature q)
                                 = Ret (style q'))
                      (take k (postcodeLayer s)) (take k (postcodeLayer s'))
            ∧ drop k (postcodeLayer s') = drop k (postcodeLayer s))).
Proof.
  split; [by apply (bool_decide_unpack _)|].
  intros Hforeign. unfold onBoroughClick.
  set (s2 := set_leafletMap _ _).
  assert (Hext : ∀ l f, stylePostcode env (set_postcodeLayer l s2) f
                        = stylePostcode env s2 f).
  { intros l f. by apply stylePostcode_ext. }
  change (postcodeLayer s2) with (postcodeLayer s).
  pose proof (setStyle_Ret (stylePostcode env s2) (postcodeLayer s)) as Hret.
  pose proof (setStyle_Ret_inv (stylePostcode env s2) (postcodeLayer s)) as Hinv.
  pose proof (setStyle_Throw (stylePostcode env s2) (postcodeLayer s)) as Hthrow.
  destruct (setStyle (stylePostcode env s2) (postcodeLayer s)) as [r l].
  simpl in Hret, Hinv, Hthrow.
  assert (Hall : Forall (λ p, ∃ st, stylePostcode env (set_postcodeLayer l s2)
                                      (feature p) = Ret st) (postcodeLayer s) →
                 r = Ret ()
                 ∧ Forall2 (λ p p', feature p' = feature p
                                    ∧ stylePostcode env (set_postcodeLayer l s2)
                                        (feature p) = Ret (style p'))
                           (postcodeLayer s) l).
  { intros Hok.
    assert (Hpre : Forall (λ p, ∃ st, stylePostcode env s2 (feature p) = Ret st)
                          (postcodeLayer s)).
    { eapply Forall_impl; [exact Hok|]. intros p [st Hst]. exists st.
      by rewrite <- (Hext l). }
    destruct (Hret Hpre) as [Hr Hl].
    split; [exact Hr|]. eapply Forall2_impl; [exact Hl|].
    intros p p' [Hp Hst]. split; [exact Hp|]. by rewrite Hext. }
  destruct r as [[]|e].
  - rewrite Hforeign.
    exists (ReferenceError "updatePostcodeLabels"), (set_postcodeLayer l s2).
    split; [done|]. split; [done|]. split; [done|]. split.
    + intros Hok. split; [done|]. by apply Hall.
    + intros Hbad. destruct Hbad.
      eapply Forall_impl; [exact (Hinv eq_refl)|]. intros p [st Hst].
      exists st. by rewrite Hext.
  - exists e, (set_postcodeLayer l s2).
    split; [done|]. split; [done|]. split; [done|]. split.
    + intros Hok. by destruct (Hall Hok).
    + intros _. destruct (Hthrow e eq_refl) as (k & p & Hk & Hp & Hpre & Hpost).
      exists k, p. split; [exact Hk|]. split; [by rewrite Hext|].
      split; [|exact Hpost].
      eapply Forall2_impl; [exact Hpre|].
      intros q q' [Hq Hst]. split; [exact Hq|]. by rewrite Hext.
Qed.

Lemma borough_click_reference_error_witness :
  ∃ s', onBoroughClick sampleEnv sampleBorough sampleState
        = (Throw (ReferenceError "updatePostcodeLabels"), s')
        ∧ activeBoroughGeometry s' = Some sampleBorough.
Proof.
  destruct (proj2 (borough_click_reference_error sampleEnv sampleBorough
                     sampleState) eq_refl)
    as (e & s' & Hclick & Hfocus & _ & Hok & _).
  exists s'. split; [|exact Hfocus].
  destruct Hok as [-> _]; [|exact Hclick].
  assert (E : s' = (onBoroughClick sampleEnv sampleBorough sampleState).2)
    by by rewrite Hclick.
  rewrite E. repeat constructor; eexists; vm_compute; reflexivity.
Defined.

(** *** DetailLevelController *)

Lemma replay_app ls cs cs' :
  replay ls (cs ++ cs') = replay ls cs ≫= λ ls', replay ls' cs'.
Proof.
  revert ls. induction cs as [|c cs IH]; intros ls; simpl; [done|].
  destruct c as [l|l|f p]; [case_bool_decide; [done|]|case_bool_decide; [|done]|];
    apply IH.
Qed.

Lemma consistent_addTo l m :
  consistent m → l ∉ layers m → consistent (addTo l m).
Proof.
  unfold consistent. intros Hm Hl. simpl.
  rewrite replay_app, Hm. simpl. by rewrite bool_decide_eq_false_2.
Qed.

Lemma consistent_removeLayer l m :
  consistent m → l ∈ layers m → consistent (removeLayer l m).
Proof.
  unfold consistent. intros Hm Hl. simpl.
  rewrite replay_app, Hm. simpl. by rewrite bool_decide_eq_true_2.
Qed.

Lemma filter_ne_absent (x : LayerRef) (l : list LayerRef) :
  x ∉ l → filter (λ y, y ≠ x) l = l.
Proof.
  induction l as [|y l IH]; intros Hx; [done|].
  apply not_elem_of_cons in Hx as [Hxy Hx].
  rewrite filter_cons_True by done. by rewrite IH.
Qed.

Lemma filter_ne_here (x : LayerRef) (l : list LayerRef) :
  x ∉ l → filter (λ y, y ≠ x) (x :: l) = l.
Proof.
  intros Hx. rewrite filter_cons_False by (intros H; by apply H).
  by apply filter_ne_absent.
Qed.

Lemma elem_of_labels (id : nat) (ids : list nat) :
  LabelMarker id ∈ LabelMarker <$> ids ↔ id ∈ ids.
Proof.
  rewrite list_elem_of_fmap. split.
  - by intros (i & [= ->] & Hi).
  - intros Hi. by exists id.
Qed.

Lemma elem_of_fineLayers x l :
  x ∈ fineLayers l ↔
  x = PostcodeLayer ∨ x = TileLayer ∨ ∃ id, x = LabelMarker id ∧ id ∈ labelIds l.
Proof.
  unfold fineLayers.
  rewrite elem_of_app, elem_of_reverse, list_elem_of_fmap, !elem_of_cons,
    elem_of_nil.
  split.
  - intros [(id & -> & Hid)|[->|[->|[]]]]; eauto.
  - intros [->|[->|(id & -> & Hid)]]; eauto.
Qed.

(** Mounting the labels of the postcode layer, none of which is mounted. *)
Lemma addLabels_fresh l m :
  NoDup (labelIds l) → consistent m →
  (∀ id, id ∈ labelIds l → LabelMarker id ∉ layers m) →
  consistent (addLabels l m)
  ∧ layers (addLabels l m) = reverse (LabelMarker <$> labelIds l) ++ layers m
  ∧ zoom (addLabels l m) = zoom m.
Proof.
  revert m. induction l as [|p l IH]; intros m Hnd Hm Hfresh; [done|].
  unfold addLabels, labelIds in *. simpl in *.
  destruct (labelMarker (feature p)) as [id|]; simpl in *.
  - apply NoDup_cons in Hnd as [Hid Hnd].
    destruct (IH (addTo (LabelMarker id) m)) as (Hc & Hl & Hz).
    + exact Hnd.
    + apply consistent_addTo; [exact Hm|]. apply Hfresh. by left.
    + intros i Hi. simpl. apply not_elem_of_cons. split.
      * intros [= ->]. done.
      * apply Hfresh. by right.
    + split; [exact Hc|]. split; [|exact Hz].
      rewrite Hl. simpl. rewrite reverse_cons, <- app_assoc. done.
  - by apply IH.
Qed.

(** Unmounting the labels of the postcode layer, all of which are mounted
    on top of [rest]. *)
Lemma removeLabels_mounted l m rest :
  NoDup (labelIds l) → consistent m →
  layers m = reverse (LabelMarker <$> labelIds l) ++ rest →
  (∀ id, LabelMarker id ∉ rest) →
  consistent (removeLabels l m)
  ∧ layers (removeLabels l m) = rest
  ∧ zoom (removeLabels l m) = zoom m.
Proof.
  revert m. induction l as [|p l IH]; intros m Hnd Hm Hl Hrest.
  { split; [exact Hm|]. split; [exact Hl|done]. }
  unfold removeLabels, labelIds in *. simpl in *.
  destruct (labelMarker (feature p)) as [id|]; simpl in *.
  - apply NoDup_cons in Hnd as [Hid Hnd].
    rewrite reverse_cons, <- app_assoc in Hl. simpl in Hl.
    destruct (IH (removeLayer (LabelMarker id) m)) as (Hc & Hl' & Hz).
    + exact Hnd.
    + apply consistent_removeLayer; [exact Hm|].
      rewrite Hl. apply elem_of_app. right. by left.
    + simpl. rewrite Hl, filter_app.
      rewrite filter_ne_absent.
      * by rewrite filter_ne_here.
      * rewrite elem_of_reverse. by rewrite elem_of_labels.
    + exact Hrest.
    + done.
  - by apply IH.
Qed.

Lemma hasLayer_true m x : x ∈ layers m → hasLayer m x = true.
Proof. intros H. unfold hasLayer. by rewrite bool_decide_eq_true_2. Qed.

Lemma hasLayer_false m x : x ∉ layers m → hasLayer m x = false.
Proof. intros H. unfold hasLayer. by rewrite bool_decide_eq_false_2. Qed.

Lemma BoroughLayer_not_fine l : BoroughLayer ∉ fineLayers l.
Proof.
  rewrite elem_of_fineLayers. intros [H|[H|(id & H & _)]]; discriminate.
Qed.

Lemma PostcodeLayer_fine l : PostcodeLayer ∈ fineLayers l.
Proof. rewrite elem_of_fineLayers. by left. Qed.

Lemma NoDup_fineLayers l : NoDup (labelIds l) → NoDup (fineLayers l).
Proof.
  intros Hnd. unfold fineLayers. apply NoDup_app. split; [|split].
  - rewrite reverse_Permutation.
    apply NoDup_fmap_2; [|exact Hnd]. by intros i j [= ->].
  - intros x Hx.
    apply elem_of_reverse, list_elem_of_fmap in Hx as (id & -> & _).
    rewrite !elem_of_cons, elem_of_nil. intros [H|[H|[]]]; discriminate.
  - apply NoDup_cons. split; [|apply NoDup_singleton].
    rewrite list_elem_of_singleton. discriminate.
Qed.

(** One notification: the map ends with the layers of the notified
    level; when it had them already, no call is made on the map. *)
Lemma notifyZoom_step s z :
  controllerInv s →
  controllerInv (notifyZoom s z)
  ∧ postcodeLayer (notifyZoom s z) = postcodeLayer s
  ∧ layers (leafletMap (notifyZoom s z)) = layersAt s z
  ∧ (layers (leafletMap s) = layersAt s z →
     calls (leafletMap (notifyZoom s z)) = calls (leafletMap s)).
Proof.
  intros (Hnd & Hc & Hl).
  assert (Hgoal : consistent (leafletMap (notifyZoom s z))
                  ∧ layers (leafletMap (notifyZoom s z)) = layersAt s z
                  ∧ (layers (leafletMap s) = layersAt s z →
                     calls (leafletMap (notifyZoom s z)) = calls (leafletMap s))).
  { unfold notifyZoom, handleZoomChange, layersAt. simpl.
    set (m0 := setZoom z (leafletMap s)).
    assert (Hc0 : consistent m0) by exact Hc.
    destruct (ge z (MAP_ZOOM_SELECTED - 1)); destruct Hl as [Hl|Hl].
    - (* coarse, zoomed in *)
      rewrite (hasLayer_true m0 BoroughLayer) by (simpl; rewrite Hl; by left).
      set (m1 := removeLayer BoroughLayer m0).
      assert (Hl1 : layers m1 = [TileLayer]) by (simpl; by rewrite Hl).
      assert (Hc1 : consistent m1).
      { apply consistent_removeLayer; [exact Hc0|]. simpl. rewrite Hl. by left. }
      rewrite (hasLayer_false m1 PostcodeLayer)
        by (rewrite Hl1, list_elem_of_singleton; discriminate).
      simpl.
      destruct (addLabels_fresh (postcodeLayer s) (addTo PostcodeLayer m1))
        as (Hc2 & Hl2 & _).
      + exact Hnd.
      + apply consistent_addTo; [exact Hc1|].
        rewrite Hl1, list_elem_of_singleton. discriminate.
      + intros id _.
        change (layers (addTo PostcodeLayer m1)) with (PostcodeLayer :: layers m1).
        rewrite Hl1, !elem_of_cons, elem_of_nil.
        intros [H|[H|[]]]; discriminate.
      + split; [exact Hc2|]. split.
        * rewrite Hl2.
          change (layers (addTo PostcodeLayer m1)) with (PostcodeLayer :: layers m1).
          by rewrite Hl1.
        * rewrite Hl. intros Hcf. exfalso.
          apply (BoroughLayer_not_fine (postcodeLayer s)).
          rewrite <- Hcf. by left.
    - (* fine, zoomed in *)
      rewrite (hasLayer_false m0 BoroughLayer)
        by (simpl; rewrite Hl; apply BoroughLayer_not_fine).
      rewrite (hasLayer_true m0 PostcodeLayer)
        by (simpl; rewrite Hl; apply PostcodeLayer_fine).
      simpl. by split.
    - (* coarse, zoomed out *)
      rewrite (hasLayer_false m0 PostcodeLayer)
        by (simpl; rewrite Hl; by apply (bool_decide_unpack _)).
      rewrite (hasLayer_true m0 BoroughLayer) by (simpl; rewrite Hl; by left).
      simpl. by split.
    - (* fine, zoomed out *)
      rewrite (hasLayer_true m0 PostcodeLayer)
        by (simpl; rewrite Hl; apply PostcodeLayer_fine).
      set (m1 := removeLayer PostcodeLayer m0).
      assert (Hl1 : layers m1
                    = reverse (LabelMarker <$> labelIds (postcodeLayer s))
                      ++ [TileLayer]).
      { simpl. rewrite Hl. unfold fineLayers. rewrite filter_app.
        rewrite filter_ne_absent; [done|].
        rewrite elem_of_reverse, list_elem_of_fmap.
        intros (id & H & _). discriminate. }
      assert (Hc1 : consistent m1).
      { apply consistent_removeLayer; [exact Hc0|]. simpl. rewrite Hl.
        apply PostcodeLayer_fine. }
      destruct (removeLabels_mounted (postcodeLayer s) m1 [TileLayer])
        as (Hc2 & Hl2 & _).
      + exact Hnd.
      + exact Hc1.
      + exact Hl1.
      + intros id. rewrite list_elem_of_singleton. discriminate.
      + rewrite (hasLayer_false _ BoroughLayer)
          by (rewrite Hl2, list_elem_of_singleton; discriminate).
        simpl. split; [|split].
        * apply consistent_addTo; [exact Hc2|].
          rewrite Hl2, list_elem_of_singleton. discriminate.
        * by rewrite Hl2.
        * rewrite Hl. intros Hcf. exfalso.
          apply (BoroughLayer_not_fine (postcodeLayer s)).
          rewrite Hcf. by left. }
  destruct Hgoal as (Hc' & Hl' & Hnoop).
  assert (Hp : postcodeLayer (notifyZoom s z) = postcodeLayer s).
  { unfold notifyZoom, handleZoomChange. simpl.
    by destruct (ge z (MAP_ZOOM_SELECTED - 1)). }
  split; [|by split].
  split; [by rewrite Hp|]. split; [exact Hc'|].
  rewrite Hl', Hp. unfold layersAt.
  destruct (ge z (MAP_ZOOM_SELECTED - 1)); [by right|by left].
Qed.

Lemma labelIds_imap (mk : nat → Feature → Style) (fs : list Feature) (k : nat) :
  labelIds (imap (λ i f, {| feature := onEachPostcode (k + i) f;
                            style := mk (k + i)%nat f |}) fs)
  = seq k (length fs).
Proof.
  revert k. induction fs as [|f fs IH]; intros k; [done|].
  unfold labelIds in *. simpl. rewrite Nat.add_0_r. f_equal.
  rewrite <- (IH (S k)). f_equal. apply imap_ext. intros i x _. simpl.
  by rewrite Nat.add_succ_r.
Qed.

Lemma labelIds_initialState data fs :
  labelIds (postcodeLayer (initialState data fs)) = seq 0 (length fs).
Proof.
  unfold initialState. simpl.
  exact (labelIds_imap (λ _ f, getFeatureStyle _ f 0.9 1 "#eee" 0.8) fs 0).
Qed.

Lemma controllerInv_initialState data fs :
  controllerInv (initialState data fs).
Proof.
  split; [|split].
  - rewrite labelIds_initialState. apply NoDup_seq.
  - reflexivity.
  - by left.
Qed.

(** After any sequence of notifications the map carries the layers of
    the last notified level, and those of the start when there was none. *)
Lemma notifyZooms_reach data fs zs :
  let s0 := initialState data fs in
  let s := notifyZooms s0 zs in
  controllerInv s
  ∧ postcodeLayer s = postcodeLayer s0
  ∧ layers (leafletMap s)
    = match last zs with Some z => layersAt s0 z | None => coarseLayers end.
Proof.
  induction zs as [|z zs IH] using rev_ind; simpl.
  - split; [apply controllerInv_initialState|]. by split.
  - destruct IH as (Hinv & Hp & _).
    unfold notifyZooms in *. rewrite fold_left_app. simpl.
    destruct (notifyZoom_step _ z Hinv) as (Hinv' & Hp' & Hl' & _).
    split; [exact Hinv'|]. split; [by rewrite Hp'|].
    rewrite last_snoc, Hl'. unfold layersAt. by rewrite Hp.
Qed.

Lemma PostcodeLayer_not_coarse : PostcodeLayer ∉ coarseLayers.
Proof. by apply (bool_decide_unpack _). Qed.

Lemma LabelMarker_not_coarse id : LabelMarker id ∉ coarseLayers.
Proof.
  unfold coarseLayers. rewrite !elem_of_cons, elem_of_nil.
  intros [H|[H|[]]]; discriminate.
Qed.

(** C5.  From the state [loadData] leaves, after any sequence of zoom
    notifications exactly one of the two spatial layers is mounted: the
    postcode layer if the last notified level is at least
    [MAP_ZOOM_SELECTED - 1] = 11, the borough layer otherwise (and before
    any notification).  The label markers are mounted with the postcode
    layer, no layer is mounted twice, and no call on the map mounted a
    mounted layer or unmounted one that was not.  A further notification
    on the side of the threshold that is already shown makes no call on
    the map. *)
Theorem detail_level_invariant (data : gmap string MetricRecord)
    (postcodeDataJson : list Feature) (zs : list Q) :
  let s := notifyZooms (initialState data postcodeDataJson) zs in
  let ls := layers (leafletMap s) in
  (PostcodeLayer ∈ ls ↔ BoroughLayer ∉ ls)
  ∧ (PostcodeLayer ∈ ls ↔ ∃ z, last zs = Some z ∧ 11 <= z)
  ∧ (∀ id, LabelMarker id ∈ ls
           ↔ PostcodeLayer ∈ ls ∧ (id < length postcodeDataJson)%nat)
  ∧ NoDup ls
  ∧ replay [] (calls (leafletMap s)) = Some ls
  ∧ (∀ z, (11 <= z ↔ PostcodeLayer ∈ ls) →
          layers (leafletMap (notifyZoom s z)) = ls
          ∧ calls (leafletMap (notifyZoom s z)) = calls (leafletMap s)).
Proof.
  intros s ls.
  destruct (notifyZooms_reach data postcodeDataJson zs)
    as ((Hnd & Hc & Hshape) & Hp & Hl).
  fold s in Hnd, Hc, Hshape, Hp, Hl. fold ls in Hshape, Hl.
  rewrite Hp in Hnd, Hshape.
  set (l := postcodeLayer (initialState data postcodeDataJson)) in *.
  assert (Hids : ∀ id, id ∈ labelIds l ↔ (id < length postcodeDataJson)%nat).
  { intros id. unfold l. rewrite labelIds_initialState, elem_of_seq. lia. }
  assert (Hside : PostcodeLayer ∈ ls ↔ ∃ z, last zs = Some z ∧ 11 <= z).
  { rewrite Hl. destruct (last zs) as [z|].
    - unfold layersAt. fold l.
      change (MAP_ZOOM_SELECTED - 1) with 11.
      destruct (ge z 11) eqn:E.
      + apply ge_true in E. split; [by exists z|]. intros _.
        apply PostcodeLayer_fine.
      + apply ge_false in E. split.
        * intros H. by apply PostcodeLayer_not_coarse in H.
        * intros (z' & [= <-] & Hz). by apply Qle_not_lt in Hz.
    - split.
      + intros H. by apply PostcodeLayer_not_coarse in H.
      + by intros (z & ? & _). }
  split; [|split; [exact Hside|]]; [|split; [|split; [|split; [exact Hc|]]]].
  - destruct Hshape as [-> | ->].
    + split; intros H; [by apply PostcodeLayer_not_coarse in H|].
      exfalso. apply H. by left.
    + split; intros _; [apply BoroughLayer_not_fine|apply PostcodeLayer_fine].
  - intros id. destruct Hshape as [-> | ->].
    + split; [intros H; by apply LabelMarker_not_coarse in H|].
      intros [H _]. by apply PostcodeLayer_not_coarse in H.
    + rewrite elem_of_fineLayers, <- Hids. split.
      * intros [H|[H|(i & [= <-] & Hi)]]; [discriminate..|].
        split; [apply PostcodeLayer_fine|exact Hi].
      * intros [_ Hi]. right. right. by exists id.
  - destruct Hshape as [-> | ->].
    + by apply (bool_decide_unpack _).
    + by apply NoDup_fineLayers.
  - intros z Hz.
    destruct (notifyZoom_step s z) as (_ & _ & Hl' & Hnoop).
    { split; [by rewrite Hp|]. split; [exact Hc|]. by rewrite Hp. }
    assert (Hat : layersAt s z = ls).
    { unfold layersAt. rewrite Hp. fold l.
      change (MAP_ZOOM_SELECTED - 1) with 11.
      destruct (ge z 11) eqn:E.
      - apply ge_true, Hz in E.
        destruct Hshape as [Hs|Hs]; [|done].
        fold ls in E. rewrite Hs in E. by apply PostcodeLayer_not_coarse in E.
      - apply ge_false in E.
        destruct Hshape as [Hs|Hs]; [done|].
        exfalso. apply (Qlt_not_le _ _ E), Hz. fold ls. rewrite Hs.
        apply PostcodeLayer_fine. }
    split; [by rewrite Hl'|]. apply Hnoop. by rewrite Hat.
Qed.

Lemma detail_level_invariant_witness :
  let s := notifyZooms sampleState [10; 12] in
  layers (leafletMap s)
  = [LabelMarker 1; LabelMarker 0; PostcodeLayer; TileLayer]
  ∧ calls (leafletMap s)
    = [AddLayer TileLayer; AddLayer BoroughLayer; RemoveLayer BoroughLayer;
       AddLayer PostcodeLayer; AddLayer (LabelMarker 0);
       AddLayer (LabelMarker 1)]
  ∧ calls (leafletMap (notifyZoom s 12)) = calls (leafletMap s).
Proof.
  intros s. split; [vm_compute; reflexivity|]. split; [vm_compute; reflexivity|].
  destruct (detail_level_invariant sampleData samplePostcodes [10; 12])
    as (_ & _ & _ & _ & _ & Hnoop).
  apply (Hnoop 12). split.
  - intros _. apply (bool_decide_unpack _). vm_compute. exact I.
  - intros _. discriminate.
Defined.

(** *** More on the price ramp *)

Lemma gt_mono (v t t' : Q) : t' <= t → gt v t = true → gt v t' = true.
Proof.
  intros Hle Hgt. apply gt_true. apply gt_true in Hgt.
  by eapply Qle_lt_trans.
Qed.

Lemma gt_mono_value (v w t : Q) : v <= w → gt v t = true → gt w t = true.
Proof.
  intros Hle Hgt. apply gt_true. apply gt_true in Hgt.
  by eapply Qlt_le_trans.
Qed.

Lemma filter_length_mono {A} (P R : A → Prop) `{∀ x, Decision (P x)}
    `{∀ x, Decision (R x)} (l : list A) :
  (∀ x, P x → R x) → (length (filter P l) ≤ length (filter R l))%nat.
Proof.
  intros HPR. induction l as [|x l IH]; [done|].
  rewrite !filter_cons.
  destruct (decide (P x)) as [HP|HP]; destruct (decide (R x)) as [HR|HR];
    simpl; try lia.
  by destruct HR; apply HPR.
Qed.

(** The colour of a price is the colour of its bucket. *)
Lemma getPriceColor_priceBucket (v : Q) :
  priceColors !! priceBucket v = Some (getPriceColor v).
Proof.
  unfold getPriceColor, priceBucket, priceBreakPoints, priceColors.
  cbn [tail]. rewrite !filter_cons, filter_nil.
  destruct (gt v 1500000) eqn:E7; destruct (gt v 1200000) eqn:E6;
    destruct (gt v 1000000) eqn:E5; destruct (gt v 800000) eqn:E4;
    destruct (gt v 600000) eqn:E3; destruct (gt v 450000) eqn:E2;
    destruct (gt v 300000) eqn:E1;
    first
      [ reflexivity
      | exfalso;
        match goal with
        | H1 : gt v ?a = true, H2 : gt v ?b = false |- _ =>
            assert (b <= a) as Hle by discriminate;
            rewrite (gt_mono v a b Hle H1) in H2; discriminate
        end ].
Qed.

Lemma priceBucket_bound (v : Q) : (priceBucket v < 8)%nat.
Proof.
  unfold priceBucket.
  pose proof (length_filter (λ t, gt v t) (tail priceBreakPoints)) as H.
  simpl in *. lia.
Qed.

Lemma priceBucket_mono (v w : Q) :
  v <= w → (priceBucket v ≤ priceBucket w)%nat.
Proof.
  intros Hle. unfold priceBucket. apply filter_length_mono.
  intros t Ht. apply Is_true_true. apply Is_true_true in Ht.
  by eapply gt_mono_value.
Qed.

(** X1.  [getPriceColor] always returns one of the eight colours of the
    palette, the one at the index that counts the thresholds the price
    exceeds; the colours are pairwise distinct and the index never
    decreases when the price grows: a higher price is never paler. *)
Theorem price_ramp_monotone (v w : Q) :
  NoDup priceColors
  ∧ priceColors !! priceBucket v = Some (getPriceColor v)
  ∧ (priceBucket v < length priceColors)%nat
  ∧ (v <= w → (priceBucket v ≤ priceBucket w)%nat).
Proof.
  split; [by apply (bool_decide_unpack _)|].
  split; [apply getPriceColor_priceBucket|].
  split; [apply priceBucket_bound|apply priceBucket_mono].
Qed.

Lemma price_ramp_monotone_witness :
  (priceBucket 460000 ≤ priceBucket 700000)%nat.
Proof.
  apply (proj2 (proj2 (proj2 (price_ramp_monotone 460000 700000)))).
  discriminate.
Defined.

(** X2.  In price mode, whatever the price ceiling, the regions with a
    record are filled from the palette in the order of their values: of
    two regions, the one with the higher resolved value has the same or a
    darker fill. *)
Theorem price_fill_monotone (s : State) (f g : Feature)
    (df dg : MetricRecord) (o w : Q) (b : string) (fo : Q) :
  currentMode s = "price" →
  boroughData s !! name f = Some df → boroughData s !! name g = Some dg →
  priceValue s df <= priceValue s dg →
  ∃ i j,
    priceColors !! i = Some (fillColor (getFeatureStyle s f o w b fo))
    ∧ priceColors !! j = Some (fillColor (getFeatureStyle s g o w b fo))
    ∧ (i ≤ j)%nat.
Proof.
  intros Hm Hf Hg Hle.
  rewrite (getFeatureStyle_price s f df), (getFeatureStyle_price s g dg) by done.
  simpl.
  destruct (gt (priceValue s dg) (maxPrice s)) eqn:Eg.
  - destruct (gt (priceValue s df) (maxPrice s)) eqn:Ef.
    + by exists 7%nat, 7%nat.
    + exists (priceBucket (priceValue s df)), 7%nat.
      split; [apply getPriceColor_priceBucket|]. split; [done|].
      pose proof (priceBucket_bound (priceValue s df)). lia.
  - assert (Ef : gt (priceValue s df) (maxPrice s) = false).
    { apply gt_false. apply gt_false in Eg. by eapply Qle_trans. }
    rewrite Ef.
    exists (priceBucket (priceValue s df)), (priceBucket (priceValue s dg)).
    split; [apply getPriceColor_priceBucket|].
    split; [apply getPriceColor_priceBucket|]. by apply priceBucket_mono.
Qed.

Lemma price_fill_monotone_witness :
  ∃ i j,
    priceColors !! i
    = Some (fillColor (getFeatureStyle (script samplePage)
                         {| name := "E2"; geometry := square 5 5;
                            labelMarker := None |} 0.9 1 "#eee" 0.8))
    ∧ priceColors !! j
      = Some (fillColor (getFeatureStyle (script samplePage)
                           {| name := "E1"; geometry := square 0 0;
                              labelMarker := None |} 0.9 1 "#eee" 0.8))
    ∧ (i ≤ j)%nat.
Proof.
  apply (price_fill_monotone (script samplePage) _ _
           (sampleMock "E2")
           (getCombinedData sampleReal sampleMock "E1")).
  - reflexivity.
  - vm_compute. reflexivity.
  - vm_compute. reflexivity.
  - vm_compute. discriminate.
Defined.

(** *** More on the continuous ramp *)

Lemma round_inject (z : Z) : round (inject_Z z) = z.
Proof.
  unfold round. apply Z.le_antisymm.
  - apply Z.lt_succ_r. rewrite Zlt_Qlt.
    eapply Qle_lt_trans; [apply Qfloor_le|].
    unfold Z.succ. rewrite inject_Z_plus.
    apply Qplus_lt_r. reflexivity.
  - rewrite <- (Qfloor_Z z) at 1. apply Qfloor_resp_le.
    rewrite <- (Qplus_0_r (inject_Z z)) at 1.
    apply Qplus_le_r. discriminate.
Qed.

Lemma round_mono (x y : Q) : x <= y → (round x ≤ round y)%Z.
Proof. intros H. unfold round. apply Qfloor_resp_le. lra. Qed.

Lemma round_le_inject (x : Q) (z : Z) : x <= inject_Z z → (round x ≤ z)%Z.
Proof. intros H. rewrite <- (round_inject z). by apply round_mono. Qed.

Lemma inject_le_round (x : Q) (z : Z) : inject_Z z <= x → (z ≤ round x)%Z.
Proof. intros H. rewrite <- (round_inject z). by apply round_mono. Qed.

Lemma channel_between (s e : Z) (v : Q) :
  0 <= v <= 1 →
  (Z.min s e ≤ channel (inject_Z s) (inject_Z e) v ≤ Z.max s e)%Z.
Proof.
  intros [H0 H1]. unfold channel.
  destruct (Z.le_ge_cases s e) as [Hse|Hes].
  - rewrite Z.min_l, Z.max_r by done. rewrite Zle_Qle in Hse.
    split; [apply inject_le_round|apply round_le_inject]; nra.
  - rewrite Z.min_r, Z.max_l by done. rewrite Zle_Qle in Hes.
    split; [apply inject_le_round|apply round_le_inject]; nra.
Qed.

Lemma channel_mono (s e v w : Q) :
  e <= s → v <= w → (channel s e w ≤ channel s e v)%Z.
Proof. intros He Hv. unfold channel. apply round_mono. nra. Qed.

(** X3.  The result of [getScaleColor] is the [rgb(r, g, b)] text of its
    three channels.  For integer end points and a value in [0, 1] every
    channel lies between its start and its end, so the three score ramps,
    which run from white to a colour with channels in 0..255, give valid
    channels; and along a ramp whose end is not above its start a larger
    value never gives a larger channel. *)
Theorem continuous_ramp_range (v w : Q) (s0 s1 s2 e0 e1 e2 : Z) :
  getScaleColor v (inject_Z s0, inject_Z s1, inject_Z s2)
                  (inject_Z e0, inject_Z e1, inject_Z e2)
  = rgbString (channel (inject_Z s0) (inject_Z e0) v)
              (channel (inject_Z s1) (inject_Z e1) v)
              (channel (inject_Z s2) (inject_Z e2) v)
  ∧ (0 <= v <= 1 →
     (Z.min s0 e0 ≤ channel (inject_Z s0) (inject_Z e0) v ≤ Z.max s0 e0)%Z
     ∧ (Z.min s1 e1 ≤ channel (inject_Z s1) (inject_Z e1) v ≤ Z.max s1 e1)%Z
     ∧ (Z.min s2 e2 ≤ channel (inject_Z s2) (inject_Z e2) v ≤ Z.max s2 e2)%Z)
  ∧ (v <= w → (e0 ≤ s0)%Z → (e1 ≤ s1)%Z → (e2 ≤ s2)%Z →
     (channel (inject_Z s0) (inject_Z e0) w ≤ channel (inject_Z s0) (inject_Z e0) v)%Z
     ∧ (channel (inject_Z s1) (inject_Z e1) w ≤ channel (inject_Z s1) (inject_Z e1) v)%Z
     ∧ (channel (inject_Z s2) (inject_Z e2) w ≤ channel (inject_Z s2) (inject_Z e2) v)%Z).
Proof.
  split; [reflexivity|]. split.
  - intros Hv. repeat split; by apply channel_between.
  - intros Hvw H0 H1 H2.
    repeat split; apply channel_mono; try done; by rewrite <- Zle_Qle.
Qed.

Lemma continuous_ramp_range_witness :
  getCrimeColor (1 # 2)
  = rgbString (channel 255 220 (1 # 2)) (channel 255 38 (1 # 2))
              (channel 255 38 (1 # 2))
  ∧ (220 ≤ channel 255 220 (1 # 2) ≤ 255)%Z
  ∧ (channel 255 220 (3 # 4) ≤ channel 255 220 (1 # 2))%Z.
Proof.
  destruct (continuous_ramp_range (1 # 2) (3 # 4) 255 255 255 220 38 38)
    as (Hrgb & Hrange & Hmono).
  split; [exact Hrgb|]. split.
  - apply Hrange. split; discriminate.
  - apply Hmono; [discriminate|lia..].
Defined.

(** *** Restyling both layers *)

Lemma setStyle_features styleFn l :
  feature <$> (setStyle styleFn l).2 = feature <$> l.
Proof.
  induction l as [|p l IH]; [done|]. cbn [setStyle].
  destruct (styleFn (feature p)); [|done].
  destruct (setStyle styleFn l) as [r l']. cbn in *. by rewrite IH.
Qed.



Lemma setStyle_total (styleFn : Feature → Style) l :
  setStyle (λ f, Ret (styleFn f)) l
  = (Ret (), (λ p, {| feature := feature p; style := styleFn (feature p) |}) <$> l).
Proof.
  induction l as [|p l IH]; [done|]. cbn [setStyle]. by rewrite IH.
Qed.


Lemma styleBorough_set_postcodeLayer s l f :
  styleBorough (set_postcodeLayer l s) f = styleBorough s f.
Proof. reflexivity. Qed.

(** What [updateMapVisuals] keeps and when it returns. *)
Lemma updateMapVisuals_spec (env : Env) (pg : Page) :
  let s := script pg in
  let r := (updateMapVisuals env pg).1 in
  let pg' := (updateMapVisuals env pg).2 in
  script pg' = set_postcodeLayer (postcodeLayer (script pg')) s
  ∧ feature <$> postcodeLayer (script pg') = feature <$> postcodeLayer s
  ∧ boroughLayer pg'
    = (λ p, {| feature := feature p; style := styleBorough s (feature p) |})
      <$> boroughLayer pg
  ∧ (r = Ret ()
     ↔ Forall (λ p, ∃ st, stylePostcode env s (feature p) = Ret st)
              (postcodeLayer s)).
Proof.
  intros s r pg'. subst r pg'. unfold updateMapVisuals. fold s.
  rewrite setStyle_total.
  pose proof (setStyle_features (stylePostcode env s) (postcodeLayer s)) as Hf.
  pose proof (setStyle_Ret (stylePostcode env s) (postcodeLayer s)) as Hret.
  pose proof (setStyle_Ret_inv (stylePostcode env s) (postcodeLayer s)) as Hinv.
  destruct (setStyle (stylePostcode env s) (postcodeLayer s)) as [r l].
  cbn in *.
  split; [done|]. split; [exact Hf|]. split; [done|].
  split; [exact Hinv|]. intros H. by destruct (Hret H).
Qed.



(** X6.  Once a borough of the layer is focused, [styleBorough] no
    longer looks at the metrics.  With borough features of pairwise distinct
    contents, [updateMapVisuals] gives the path of the focused borough, and
    that path only, the transparent style with the ["#666"] border, and
    every other borough path the same dimmed grey; both style objects carry
    [interactive: false], and neither depends on the records or the view
    parameters. *)
Theorem borough_focus_styles (env : Env) (pg : Page) (focus : Feature)
    (i : nat) :
  let s := script pg in
  activeBoroughGeometry s = Some focus →
  NoDup (feature <$> boroughLayer pg) →
  (feature <$> boroughLayer pg) !! i = Some focus →
  (∀ j p, boroughLayer (updateMapVisuals env pg).2 !! j = Some p →
     interactive (style p) = Some false
     ∧ (j = i →
        style p =
          {| fillColor := "transparent"; weight := 2; opacity := 1;
             color := "#666"; dashArray := None; fillOpacity := 0;
             interactive := Some false |})
     ∧ (j ≠ i →
        style p =
          {| fillColor := "#f5f5f5"; weight := 1; opacity := 1;
             color := "#ddd"; dashArray := None; fillOpacity := 0.5;
             interactive := Some false |}))
  ∧ (∀ s' f, activeBoroughGeometry s' = Some focus →
             styleBorough s' f = styleBorough s f).
Proof.
  intros s Hf Hnd Hi.
  destruct (updateMapVisuals_spec env pg) as (_ & _ & Hb & _).
  fold s in Hb. rewrite Hb. split.
  - intros j p Hj. rewrite list_lookup_fmap in Hj.
    destruct (boroughLayer pg !! j) as [q|] eqn:Eq; [|done].
    injection Hj as <-. cbn. unfold styleBorough. rewrite Hf.
    assert (Hq : (feature <$> boroughLayer pg) !! j = Some (feature q))
      by by rewrite list_lookup_fmap, Eq.
    destruct (decide (feature q = focus)) as [Heq|Hne]; cbn.
    + rewrite Heq in Hq.
      pose proof (NoDup_lookup _ _ _ _ Hnd Hq Hi) as Hji.
      split; [done|]. split; [done|]. by intros ?.
    + split; [done|]. split; [|done].
      intros ->. rewrite Hi in Hq. by injection Hq as ->.
  - intros s' f Hf'. unfold styleBorough. by rewrite Hf, Hf'.
Qed.

Lemma borough_focus_styles_witness :
  ∃ p,
    boroughLayer
      (updateMapVisuals sampleEnv
         (set_script
            (set_activeBoroughGeometry (Some sampleBorough)
               (script samplePage)) samplePage)).2 !! 1%nat = Some p
    ∧ style p =
        {| fillColor := "#f5f5f5"; weight := 1; opacity := 1;
           color := "#ddd"; dashArray := None; fillOpacity := 0.5;
           interactive := Some false |}.
Proof.
  destruct (borough_focus_styles sampleEnv
              (set_script
                 (set_activeBoroughGeometry (Some sampleBorough)
                    (script samplePage)) samplePage) sampleBorough 0)
    as [Hpaths _].
  - reflexivity.
  - apply (bool_decide_unpack _). vm_compute. reflexivity.
  - reflexivity.
  - eexists. split; [vm_compute; reflexivity|].
    refine (proj2 (proj2 (Hpaths 1%nat _ _)) _); [vm_compute; reflexivity|].
    discriminate.
Defined.

(** *** Loading the records *)

Lemma populate_cons real mock f fs data :
  populate real mock (f :: fs) data
  = populate real mock fs
      (if decide (name f ≠ "") then
         match getProperty data (name f) with
         | Own _ | Inherited => data
         | Missing => <[name f := getCombinedData real mock (name f)]> data
         end
       else data).
Proof. reflexivity. Qed.

(** The records after one pass over a list of features. *)
Lemma populate_lookup real mock fs (data : gmap string MetricRecord) k :
  populate real mock fs data !! k
  = match data !! k with
    | Some r => Some r
    | None =>
        if decide (k ≠ "" ∧ (k ∉ objectPrototype) ∧ k ∈ name <$> fs)
        then Some (getCombinedData real mock k) else None
    end.
Proof.
  revert data. induction fs as [|f fs IH]; intros data.
  - cbn. destruct (data !! k); [done|].
    rewrite decide_False; [done|]. intros (_ & _ & H). by apply elem_of_nil in H.
  - rewrite populate_cons, IH. clear IH.
    rewrite fmap_cons. unfold getProperty.
    destruct (decide (name f ≠ "")) as [Hn|Hn].
    + destruct (data !! name f) as [r|] eqn:Ef.
      * destruct (data !! k) as [r'|] eqn:Ek; [done|].
        assert (Hk : k ≠ name f) by (intros ->; congruence).
        apply decide_ext. rewrite elem_of_cons. intuition congruence.
      * destruct (decide (name f ∈ objectPrototype)) as [Hi|Hi].
        -- destruct (data !! k); [done|].
           apply decide_ext. rewrite elem_of_cons. intuition congruence.
        -- destruct (decide (k = name f)) as [->|Hk].
           ++ rewrite lookup_insert_eq, Ef.
              rewrite decide_True; [done|].
              split; [done|]. split; [done|]. by left.
           ++ rewrite lookup_insert_ne by done.
              destruct (data !! k); [done|].
              apply decide_ext. rewrite elem_of_cons. intuition congruence.
    + destruct (data !! k); [done|].
      apply decide_ext. rewrite elem_of_cons.
      apply dec_stable in Hn. intuition congruence.
Qed.

Lemma loadStore_lookup (real : gmap string (gmap Z (gmap string Q)))
    (mock : string → MetricRecord) (bs ps : list Feature) (k : string) :
  loadStore real mock bs ps !! k
  = (if decide (k ≠ "" ∧ (k ∉ objectPrototype) ∧ k ∈ name <$> (bs ++ ps))
     then Some (getCombinedData real mock k) else None).
Proof.
  unfold loadStore. rewrite !populate_lookup, lookup_empty.
  rewrite fmap_app.
  destruct (decide (k ≠ "" ∧ (k ∉ objectPrototype) ∧ k ∈ name <$> bs))
    as [(Hk & Hi & Hb)|Hb].
  - rewrite decide_True; [done|]. split; [done|]. split; [done|].
    apply elem_of_app. by left.
  - apply decide_ext. rewrite elem_of_app. intuition.
Qed.

(** X7.  After the two passes of [loadData] the records are exactly those
    of the names of the borough and postcode features that are not empty
    and no member names of [Object.prototype], each the combined data of
    its name, whichever file named it first.  A stored record of a name
    with real prices has those prices and the scores of the generator;
    that of any other stored name is the generated record.  A feature
    named like a member of [Object.prototype] gets no record. *)
Theorem load_store (real : gmap string (gmap Z (gmap string Q)))
    (mock : string → MetricRecord) (bs ps : list Feature) (k : string) :
  loadStore real mock bs ps !! k
  = (if decide (k ≠ "" ∧ (k ∉ objectPrototype) ∧ k ∈ name <$> (bs ++ ps))
     then Some (getCombinedData real mock k) else None)
  ∧ (∀ d, loadStore real mock bs ps !! k = Some d →
       k ≠ "" ∧ (k ∉ objectPrototype) ∧ k ∈ name <$> (bs ++ ps)
       ∧ match real !! k with
         | Some r =>
             prices d = r ∧ crime d = crime (mock k)
             ∧ central d = central (mock k) ∧ culture d = culture (mock k)
         | None => d = mock k
         end)
  ∧ (k ∈ objectPrototype → loadStore real mock bs ps !! k = None).
Proof.
  pose proof (loadStore_lookup real mock bs ps k) as Hk.
  split; [exact Hk|split].
  - intros d Hd. rewrite Hk in Hd.
    destruct (decide (k ≠ "" ∧ (k ∉ objectPrototype) ∧ k ∈ name <$> (bs ++ ps)))
      as [(H1 & H2 & H3)|]; [|done].
    injection Hd as <-. split; [done|]. split; [done|]. split; [done|].
    unfold getCombinedData. by destruct (real !! k).
  - intros Hi. rewrite Hk. rewrite decide_False; [done|]. by intros (_ & ? & _).
Qed.

Lemma load_store_witness :
  loadStore sampleReal sampleMock (inheritedFeature :: sampleBoroughs)
    samplePostcodes !! "constructor" = None
  ∧ ∃ d, loadStore sampleReal sampleMock (inheritedFeature :: sampleBoroughs)
           samplePostcodes !! "E1" = Some d
         ∧ prices d
           = {[ 2025%Z := {[ "detached" := 900000; "flat" := 500000 ]} ]}.
Proof.
  split.
  - apply (proj2 (proj2 (load_store sampleReal sampleMock
                           (inheritedFeature :: sampleBoroughs) samplePostcodes
                           "constructor"))).
    by apply (bool_decide_unpack _).
  - eexists. split; [vm_compute; reflexivity|].
    refine (proj1 (proj2 (proj2 (proj2
              (proj1 (proj2 (load_store sampleReal sampleMock
                               (inheritedFeature :: sampleBoroughs)
                               samplePostcodes "E1")) _ _))))).
    vm_compute. reflexivity.
Defined.

(** X8.  With the records of [loadData], every feature of the two files
    whose name is not empty and no member name of [Object.prototype] has a
    record, and [getFeatureStyle] gives it a metric-driven style.  The
    neutral style of a region without a record is that of the features
    without a name.  A feature named like a member of [Object.prototype]
    has no record and still no neutral style: [getFeatureStyle] throws on
    it in price mode. *)
Theorem loaded_styles (real : gmap string (gmap Z (gmap string Q)))
    (mock : string → MetricRecord) (bs ps : list Feature) (s : State)
    (f : Feature) (o w : Q) (b : string) (fo : Q) :
  boroughData s = loadStore real mock bs ps → f ∈ bs ++ ps →
  (name f ≠ "" → name f ∉ objectPrototype →
     boroughData s !! name f = Some (getCombinedData real mock (name f))
     ∧ ∃ st, getFeatureStyleObject s f o w b fo = Ret st
             ∧ dashArray st = Some "" ∧ fillOpacity st = fo)
  ∧ (name f = "" →
     getFeatureStyleObject s f o w b fo =
       Ret {| fillColor := "#ccc"; weight := w; opacity := 1; color := b;
              dashArray := None; fillOpacity := 0.2; interactive := None |})
  ∧ (name f ∈ objectPrototype →
     boroughData s !! name f = None
     ∧ (currentMode s = "price" →
        ∃ msg, getFeatureStyleObject s f o w b fo = Throw (TypeError msg))
     ∧ getFeatureStyleObject s f o w b fo ≠
         Ret {| fillColor := "#ccc"; weight := w; opacity := 1; color := b;
                dashArray := None; fillOpacity := 0.2; interactive := None |}).
Proof.
  intros Hs Hf.
  pose proof (loadStore_lookup real mock bs ps (name f)) as Hk.
  rewrite <- Hs in Hk. split; [|split].
  - intros Hn Hi.
    assert (Hd : boroughData s !! name f
                 = Some (getCombinedData real mock (name f))).
    { rewrite Hk. rewrite decide_True; [done|]. split; [done|].
      split; [done|]. apply list_elem_of_fmap. by exists f. }
    split; [exact Hd|].
    exists (getFeatureStyle s f o w b fo).
    split; [apply getFeatureStyleObject_lookup; by right|].
    unfold getFeatureStyle. by rewrite Hd.
  - intros Hn.
    assert (Hd : boroughData s !! name f = None).
    { rewrite Hk. rewrite decide_False; [done|]. by intros [? _]. }
    rewrite getFeatureStyleObject_lookup.
    + by rewrite getFeatureStyle_unknown.
    + right. rewrite Hn. by apply (bool_decide_unpack _).
  - intros Hi.
    assert (Hd : boroughData s !! name f = None).
    { rewrite Hk. rewrite decide_False; [done|]. by intros (_ & ? & _). }
    split; [exact Hd|].
    destruct (getFeatureStyleObject_inherited s f o w b fo Hd Hi)
      as (Hprice & _ & Hneutral).
    by split.
Qed.

Lemma loaded_styles_witness :
  (∃ st, getFeatureStyleObject (script samplePage) sampleBorough
           0.8 2 "white" 0.6 = Ret st
         ∧ dashArray st = Some "")
  ∧ ∃ msg,
      getFeatureStyleObject
        (initialState
           (loadStore sampleReal sampleMock (inheritedFeature :: sampleBoroughs)
              samplePostcodes) samplePostcodes)
        inheritedFeature 0.8 2 "white" 0.6
      = Throw (TypeError msg).
Proof.
  split.
  - destruct (proj1 (loaded_styles sampleReal sampleMock sampleBoroughs
                       samplePostcodes (script samplePage) sampleBorough
                       0.8 2 "white" 0.6 eq_refl ltac:(by left)))
      as (_ & st & Hst & Hdash & _).
    + discriminate.
    + by apply (bool_decide_unpack _).
    + by exists st.
  - apply (proj2 (proj2 (loaded_styles sampleReal sampleMock
                           (inheritedFeature :: sampleBoroughs) samplePostcodes
                           (initialState
                              (loadStore sampleReal sampleMock
                                 (inheritedFeature :: sampleBoroughs)
                                 samplePostcodes) samplePostcodes)
                           inheritedFeature 0.8 2 "white" 0.6 eq_refl
                           ltac:(by left)))).
    + by apply (bool_decide_unpack _).
    + reflexivity.
Defined.

(** *** Sequences of events *)

Lemma notifyZoom_frame s z :
  notifyZoom s z
  = set_leafletMap (leafletMap (notifyZoom s z)) (set_currentZoom z s).
Proof.
  unfold notifyZoom, handleZoomChange. cbn.
  by destruct (ge z (MAP_ZOOM_SELECTED - 1)).
Qed.

Lemma onBoroughClick_frame env borough s :
  foreign env "updatePostcodeLabels" = None →
  (onBoroughClick env borough s).2
  = set_postcodeLayer (postcodeLayer (onBoroughClick env borough s).2)
      (set_leafletMap (fitBounds borough (20, 20)%Z (leafletMap s))
         (set_activeBoroughGeometry (Some borough) s))
  ∧ feature <$> postcodeLayer (onBoroughClick env borough s).2
    = feature <$> postcodeLayer s.
Proof.
  intros Hforeign. unfold onBoroughClick.
  set (s2 := set_leafletMap _ _).
  pose proof (setStyle_features (stylePostcode env s2) (postcodeLayer s2)) as Hf.
  destruct (setStyle (stylePostcode env s2) (postcodeLayer s2)) as [r l].
  cbn in Hf. rewrite Hforeign. by destruct r as [[]|e].
Qed.

Lemma updateMapVisuals_frame env pg :
  script (updateMapVisuals env pg).2
  = set_postcodeLayer (postcodeLayer (script (updateMapVisuals env pg).2))
      (script pg)
  ∧ feature <$> postcodeLayer (script (updateMapVisuals env pg).2)
    = feature <$> postcodeLayer (script pg).
Proof.
  destruct (updateMapVisuals_spec env pg) as (H1 & H2 & _). by split.
Qed.

(** What one event changes in the script state. *)
Lemma dispatch_frame env pg e :
  foreign env "updatePostcodeLabels" = None →
  let s := script pg in
  let s' := script (dispatch env pg e).2 in
  boroughData s' = boroughData s
  ∧ feature <$> postcodeLayer s' = feature <$> postcodeLayer s
  ∧ activeBoroughGeometry s'
    = match e with BoroughClick f => Some f | _ => activeBoroughGeometry s end
  ∧ maxPrice s'
    = match e with PriceInput p => inject_Z p | _ => maxPrice s end
  ∧ currentYear s'
    = match e with YearChange y => y | _ => currentYear s end
  ∧ currentType s'
    = match e with TypeChange t => t | _ => currentType s end
  ∧ currentMode s'
    = match e with ModeClick m => m | _ => currentMode s end
  ∧ currentZoom s'
    = match e with ZoomEnd z => z | _ => currentZoom s end
  ∧ leafletMap s'
    = match e with
      | ZoomEnd z => leafletMap (notifyZoom s z)
      | BoroughClick f => fitBounds f (20, 20)%Z (leafletMap s)
      | _ => leafletMap s
      end.
Proof.
  intros Hforeign s s'. subst s s'.
  destruct e as [z|f|p|y|t|m]; cbn [dispatch].
  - cbn. rewrite (notifyZoom_frame (script pg) z). cbn.
    repeat split.
  - destruct (onBoroughClick_frame env f (script pg) Hforeign) as [Hs Hf].
    destruct (onBoroughClick env f (script pg)) as [r s1]. cbn in *.
    rewrite Hs. by repeat split.
  - destruct (updateMapVisuals_frame env
                (set_script (set_maxPrice (inject_Z p) (script pg)) pg))
      as [Hs Hf].
    rewrite Hs. by repeat split.
  - destruct (updateMapVisuals_frame env
                (set_script (set_currentYear y (script pg)) pg)) as [Hs Hf].
    rewrite Hs. by repeat split.
  - destruct (updateMapVisuals_frame env
                (set_script (set_currentType t (script pg)) pg)) as [Hs Hf].
    rewrite Hs. by repeat split.
  - destruct (updateMapVisuals_frame env
                (set_script (set_currentMode m (script pg)) pg)) as [Hs Hf].
    destruct (updateMapVisuals env
                (set_script (set_currentMode m (script pg)) pg)) as [r pg1].
    cbn in *. assert (Hs' : script (match r with
                                    | Ret _ =>
                                        (Ret (),
                                         {| script := script pg1;
                                            boroughLayer := boroughLayer pg1;
                                            legendContent := updateLegend (script pg1) |})
                                    | Throw e0 => (Throw e0, pg1)
                                    end).2 = script pg1) by by destruct r.
    rewrite Hs', Hs. by repeat split.
Qed.

Lemma labelIds_features l l' :
  feature <$> l = feature <$> l' → labelIds l = labelIds l'.
Proof.
  intros H. unfold labelIds.
  assert (E : ∀ k : list Sublayer,
             omap (λ p, labelMarker (feature p)) k
             = omap labelMarker (feature <$> k)).
  { intros k. induction k as [|p k IH]; csimpl; [done|]. by rewrite IH. }
  by rewrite !E, H.
Qed.

Lemma runEvents_snoc env pg es e :
  runEvents env pg (es ++ [e]) = (dispatch env (runEvents env pg es) e).2.
Proof. unfold runEvents. by rewrite fold_left_app. Qed.

Lemma last_app_option {A} (l : list A) (o : option A) :
  last (l ++ match o with Some x => [x] | None => [] end)
  = match o with Some x => Some x | None => last l end.
Proof. destruct o; [apply last_snoc|by rewrite app_nil_r]. Qed.

(** One event keeps the controller in one of its two configurations; only
    a zoom notification changes the mounted layers. *)
Lemma dispatch_inv env pg e :
  foreign env "updatePostcodeLabels" = None →
  controllerInv (script pg) →
  controllerInv (script (dispatch env pg e).2)
  ∧ layers (leafletMap (script (dispatch env pg e).2))
    = match e with
      | ZoomEnd z => layersAt (script pg) z
      | _ => layers (leafletMap (script pg))
      end.
Proof.
  intros Hforeign Hinv.
  destruct (dispatch_frame env pg e Hforeign)
    as (_ & Hf & _ & _ & _ & _ & _ & _ & Hm).
  apply labelIds_features in Hf.
  destruct Hinv as (Hnd & Hc & Hl).
  destruct (notifyZoom_step (script pg) match e with ZoomEnd z => z | _ => 0 end)
    as ((_ & Hc' & Hl') & Hp' & Hat & _); [done|].
  unfold controllerInv, fineLayers. rewrite Hf, Hm.
  destruct e as [z|f|p|y|t|m]; (split; [split; [exact Hnd|]|]); try done.
  - split; [exact Hc'|]. unfold fineLayers in Hl'. by rewrite Hp' in Hl'.
  - split; [|exact Hl]. unfold consistent in *. cbn.
    rewrite replay_app, Hc. done.
Qed.

Lemma runEvents_inv env real mock bs ps es :
  foreign env "updatePostcodeLabels" = None →
  let s0 := script (initialPage real mock bs ps) in
  let s := script (runEvents env (initialPage real mock bs ps) es) in
  controllerInv s
  ∧ labelIds (postcodeLayer s) = seq 0 (length ps)
  ∧ layers (leafletMap s)
    = match last (zoomsOf es) with
      | Some z => layersAt s z
      | None => coarseLayers
      end.
Proof.
  intros Hforeign s0 s. subst s0 s.
  induction es as [|e es IH] using rev_ind.
  - split; [apply controllerInv_initialState|].
    split; [apply labelIds_initialState|done].
  - destruct IH as (Hinv & Hids & Hl).
    rewrite runEvents_snoc.
    set (pg := runEvents env (initialPage real mock bs ps) es) in *.
    destruct (dispatch_inv env pg e Hforeign Hinv) as [Hinv' Hl'].
    destruct (dispatch_frame env pg e Hforeign) as (_ & Hf & _).
    apply labelIds_features in Hf.
    split; [exact Hinv'|]. split; [by rewrite Hf|].
    unfold zoomsOf. rewrite omap_app. cbn [omap list_omap].
    fold (zoomsOf es).
    rewrite Hl'. unfold layersAt, fineLayers in *. rewrite Hf.
    destruct e as [z|f|p|y|t|m]; cbn.
    + by rewrite last_snoc.
    + by rewrite app_nil_r.
    + by rewrite app_nil_r.
    + by rewrite app_nil_r.
    + by rewrite app_nil_r.
    + by rewrite app_nil_r.
Qed.

(** X9.  From the loaded page, whatever the sequence of zoom
    notifications, borough clicks and control changes, and whether or not
    their handlers throw, exactly one of the two spatial layers is
    mounted: the postcode layer if the last zoom notification was at level
    11 or above, the borough layer otherwise.  The label markers are
    mounted with the postcode layer, nothing is mounted twice and no call
    mounted a mounted layer or unmounted one that was not.  ([turf] and the
    generator are arbitrary; no other script binds
    [updatePostcodeLabels].) *)
Theorem events_keep_one_layer (env : Env)
    (real : gmap string (gmap Z (gmap string Q)))
    (mock : string → MetricRecord) (bs ps : list Feature) (es : list Event) :
  foreign env "updatePostcodeLabels" = None →
  let s := script (runEvents env (initialPage real mock bs ps) es) in
  let ls := layers (leafletMap s) in
  (PostcodeLayer ∈ ls ↔ BoroughLayer ∉ ls)
  ∧ (PostcodeLayer ∈ ls ↔ ∃ z, last (zoomsOf es) = Some z ∧ 11 <= z)
  ∧ (∀ id, LabelMarker id ∈ ls ↔ PostcodeLayer ∈ ls ∧ (id < length ps)%nat)
  ∧ NoDup ls
  ∧ replay [] (calls (leafletMap s)) = Some ls.
Proof.
  intros Hforeign s ls.
  destruct (runEvents_inv env real mock bs ps es Hforeign)
    as ((Hnd & Hc & Hshape) & Hids & Hl).
  fold s in Hnd, Hc, Hshape, Hids, Hl. fold ls in Hshape, Hl.
  set (l := postcodeLayer s) in *.
  assert (Hside : PostcodeLayer ∈ ls ↔ ∃ z, last (zoomsOf es) = Some z ∧ 11 <= z).
  { rewrite Hl. destruct (last (zoomsOf es)) as [z|].
    - unfold layersAt. fold l. change (MAP_ZOOM_SELECTED - 1) with 11.
      destruct (ge z 11) eqn:E.
      + apply ge_true in E. split; [by exists z|]. intros _.
        apply PostcodeLayer_fine.
      + apply ge_false in E. split.
        * intros H. by apply PostcodeLayer_not_coarse in H.
        * intros (z' & [= <-] & Hz). by apply Qle_not_lt in Hz.
    - split.
      + intros H. by apply PostcodeLayer_not_coarse in H.
      + by intros (z & ? & _). }
  split; [|split; [exact Hside|]]; [|split; [|split; [|exact Hc]]].
  - destruct Hshape as [-> | ->].
    + split; intros H; [by apply PostcodeLayer_not_coarse in H|].
      exfalso. apply H. by left.
    + split; intros _; [apply BoroughLayer_not_fine|apply PostcodeLayer_fine].
  - intros id. destruct Hshape as [-> | ->].
    + split; [intros H; by apply LabelMarker_not_coarse in H|].
      intros [H _]. by apply PostcodeLayer_not_coarse in H.
    + rewrite elem_of_fineLayers, Hids. split.
      * intros [H|[H|(i & [= <-] & Hi)]]; [discriminate..|].
        apply elem_of_seq in Hi. split; [apply PostcodeLayer_fine|lia].
      * intros [_ Hi]. right. right. exists id. split; [done|].
        apply elem_of_seq. lia.
  - destruct Hshape as [-> | ->].
    + by apply (bool_decide_unpack _).
    + by apply NoDup_fineLayers.
Qed.

Lemma events_keep_one_layer_witness :
  layers (leafletMap (script
    (runEvents sampleEnv samplePage
       [ZoomEnd 12; BoroughClick sampleBorough; YearChange 2024; ZoomEnd 12])))
  = [LabelMarker 1; LabelMarker 0; PostcodeLayer; TileLayer]
  ∧ NoDup (layers (leafletMap (script
      (runEvents sampleEnv samplePage
         [ZoomEnd 12; BoroughClick sampleBorough; YearChange 2024; ZoomEnd 12])))).
Proof.
  split; [vm_compute; reflexivity|].
  apply (events_keep_one_layer sampleEnv sampleReal sampleMock sampleBoroughs
           samplePostcodes
           [ZoomEnd 12; BoroughClick sampleBorough; YearChange 2024; ZoomEnd 12]
           eq_refl).
Defined.

(** X10.  No event clears the focus or touches the records: after any
    sequence of events the focus is the borough of the last click (none
    before the first click), each view parameter is the value its control
    last gave it, or its initial value, and [currentZoom] is the level of
    the last zoom notification.  A handler that throws has already made
    its assignment. *)
Theorem events_last_writer (env : Env)
    (real : gmap string (gmap Z (gmap string Q)))
    (mock : string → MetricRecord) (bs ps : list Feature) (es : list Event) :
  foreign env "updatePostcodeLabels" = None →
  let s := script (runEvents env (initialPage real mock bs ps) es) in
  boroughData s = loadStore real mock bs ps
  ∧ activeBoroughGeometry s = last (clicksOf es)
  ∧ maxPrice s = default 5000000 (inject_Z <$> last (pricesOf es))
  ∧ currentYear s = default 2025%Z (last (yearsOf es))
  ∧ currentType s = default "all" (last (typesOf es))
  ∧ currentMode s = default "price" (last (modesOf es))
  ∧ currentZoom s = default MAP_ZOOM_DEFAULT (last (zoomsOf es)).
Proof.
  intros Hforeign s. subst s.
  induction es as [|e es IH] using rev_ind; [by repeat split|].
  destruct IH as (Hd & Hf & Hp & Hy & Ht & Hm & Hz).
  rewrite runEvents_snoc.
  set (pg := runEvents env (initialPage real mock bs ps) es) in *.
  destruct (dispatch_frame env pg e Hforeign)
    as (Hd' & _ & Hf' & Hp' & Hy' & Ht' & Hm' & Hz' & _).
  rewrite Hd', Hf', Hp', Hy', Ht', Hm', Hz'.
  unfold clicksOf, pricesOf, yearsOf, typesOf, modesOf, zoomsOf.
  rewrite !omap_app. cbn [omap list_omap].
  fold (clicksOf es) (pricesOf es) (yearsOf es) (typesOf es) (modesOf es)
    (zoomsOf es).
  destruct e as [z|f|p|y|t|m]; cbn;
    rewrite ?app_nil_r, ?last_snoc; by repeat split.
Qed.

Lemma events_last_writer_witness :
  activeBoroughGeometry (script
    (runEvents sampleEnv samplePage
       [BoroughClick sampleBorough; ModeClick "crime"; ZoomEnd 9]))
  = Some sampleBorough.
Proof.
  apply (events_last_writer sampleEnv sampleReal sampleMock sampleBoroughs
           samplePostcodes
           [BoroughClick sampleBorough; ModeClick "crime"; ZoomEnd 9] eq_refl).
Defined.

(** *** The unguarded average and the sidebar *)

Lemma values_empty (pm : gmap string Q) :
  length (map_to_list pm).*2 = 0%nat ↔ pm = ∅.
Proof.
  rewrite length_fmap, length_zero_iff_nil. apply map_to_list_empty_iff.
Qed.

(** X11.  [getAveragePrice] lacks the guards of [getFeatureStyle]: it
    throws when the record has no prices for the year, where
    [getFeatureStyle] resolves the value 0, and it is [NaN] exactly for
    [currentType = "all"] on a year without entries, where the value is 0
    again.  Whenever it returns a number, it is the value that
    [getFeatureStyle] resolves. *)
Theorem average_price_unguarded (s : State) (data : MetricRecord) :
  (prices data !! currentYear s = None →
     (∃ e, getAveragePrice s data = Throw e) ∧ priceValue s data = 0)
  ∧ (getAveragePrice s data = Ret NaN
     ↔ currentType s = "all" ∧ prices data !! currentYear s = Some ∅)
  ∧ (getAveragePrice s data = Ret NaN → priceValue s data = 0)
  ∧ (∀ q, getAveragePrice s data = Ret (Num q) → priceValue s data = q)
  ∧ (∀ pm : gmap string Q,
       prices data !! currentYear s = Some pm →
       currentType s ≠ "all" ∨ pm ≠ ∅ →
       getAveragePrice s data = Ret (Num (priceValue s data))).
Proof.
  unfold getAveragePrice, priceValue.
  destruct (prices data !! currentYear s) as [pm|] eqn:Ey.
  - split; [done|].
    destruct (decide (currentType s = "all")) as [Ht|Ht].
    + destruct (decide (length (map_to_list pm).*2 = 0%nat)) as [Hn|Hn].
      * apply values_empty in Hn as ->.
        split; [done|]. split; [done|]. split; [done|].
        intros pm' [= <-] [?|?]; done.
      * split.
        { split; [done|]. intros [_ [= ->]]. by destruct Hn. }
        split; [done|]. split; [by intros q [= <-]|done].
    + split; [split; [done|by intros [? _]]|].
      split; [done|]. split; [by intros q [= <-]|done].
  - split; [split; [by eexists|done]|].
    split; [split; [done|by intros [_ ?]]|]. by repeat split.
Qed.

Lemma average_price_unguarded_witness :
  getAveragePrice sampleState sampleRecord = Ret (Num (priceValue sampleState sampleRecord))
  ∧ ∃ e, getAveragePrice (set_currentYear 2020 sampleState) sampleRecord = Throw e.
Proof.
  split.
  - apply (proj2 (proj2 (proj2 (proj2
             (average_price_unguarded sampleState sampleRecord))))
             {[ "detached" := 900000; "flat" := 500000 ]}); [reflexivity|].
    right. apply insert_non_empty.
  - apply (proj1 (average_price_unguarded (set_currentYear 2020 sampleState)
                    sampleRecord)).
    vm_compute. reflexivity.
Defined.

Lemma getScoreClass_high (v : Q) : getScoreClass v = "stat-high" ↔ 0.7 < v.
Proof.
  unfold getScoreClass. destruct (gt v 0.7) eqn:E.
  - apply gt_true in E. by split.
  - apply gt_false in E. split.
    + by destruct (gt v 0.4).
    + intros H. by apply Qlt_not_le in H.
Qed.

Lemma getScoreClass_low (v : Q) : getScoreClass v = "stat-low" ↔ v <= 0.4.
Proof.
  unfold getScoreClass. destruct (gt v 0.7) eqn:E.
  - apply gt_true in E. split; [done|]. intros H. exfalso.
    apply (Qlt_not_le _ _ E). eapply Qle_trans; [exact H|]. discriminate.
  - destruct (gt v 0.4) eqn:E'.
    + apply gt_true in E'. split; [done|]. intros H.
      by apply Qlt_not_le in E'.
    + apply gt_false in E'. by split.
Qed.

(** X12.  [updateSidebar] writes nothing for a name without a record.
    Otherwise the price it shows is the value that colours the map,
    rounded to an integer, and ["£N/A"] exactly when that is 0, as it is
    when the year or the selected type is missing; the class of a score is
    [stat-high] exactly above 0.7 and [stat-low] exactly up to 0.4. *)
Theorem sidebar_details (toLocaleString : Z → string) (toFixed0 : Q → string)
    (s : State) (props : Feature) :
  (boroughData s !! name props = None →
     updateSidebar toLocaleString toFixed0 s props = None)
  ∧ (∀ data, boroughData s !! name props = Some data →
       ∃ d, updateSidebar toLocaleString toFixed0 s props = Some d
         ∧ title d = name props ∧ detailSummary d = summary data
         ∧ priceText d
           = "£" +:+ (if decide (round (priceValue s data) = 0%Z) then "N/A"
                      else toLocaleString (round (priceValue s data)))
         ∧ (prices data !! currentYear s = None
            ∨ (∃ pm : gmap string Q,
                 prices data !! currentYear s = Some pm
                 ∧ currentType s ≠ "all" ∧ pm !! currentType s = None) →
            priceText d = "£N/A")
         ∧ (crimeClass d = "stat-high" ↔ 0.7 < crime data)
         ∧ (crimeClass d = "stat-low" ↔ crime data <= 0.4)
         ∧ (centralClass d = "stat-high" ↔ 0.7 < central data)
         ∧ (centralClass d = "stat-low" ↔ central data <= 0.4)
         ∧ (cultureClass d = "stat-high" ↔ 0.7 < culture data)
         ∧ (cultureClass d = "stat-low" ↔ culture data <= 0.4)).
Proof.
  unfold updateSidebar. split.
  - by intros ->.
  - intros data ->. fold (priceValue s data). eexists. split; [reflexivity|].
    cbn. split; [done|]. split; [done|]. split; [done|]. split.
    + intros Hmiss.
      assert (Hv : priceValue s data = 0).
      { unfold priceValue. destruct Hmiss as [Hy|(pm & Hy & Ht & Hk)].
        - by rewrite Hy.
        - by rewrite Hy, (decide_False _ _ Ht), Hk. }
      by rewrite Hv.
    + repeat split; first [apply getScoreClass_high | apply getScoreClass_low].
Qed.

Lemma sidebar_details_witness :
  ∃ d, updateSidebar (λ z, pretty z) (λ q, pretty (round q)) sampleState
         {| name := "E1"; geometry := square 0 0; labelMarker := None |}
       = Some d
       ∧ priceText d = "£700000" ∧ crimeClass d = "stat-med".
Proof.
  destruct (proj2 (sidebar_details (λ z, pretty z) (λ q, pretty (round q))
                     sampleState
                     {| name := "E1"; geometry := square 0 0;
                        labelMarker := None |}) sampleRecord eq_refl)
    as (d & Hd & _ & _ & Hprice & _).
  exists d. split; [exact Hd|]. split.
  - rewrite Hprice. vm_compute. reflexivity.
  - injection Hd as <-. vm_compute. reflexivity.
Defined.

(** *** The legend of the score modes *)

Lemma updateLegend_mode s s' :
  currentMode s = currentMode s' → updateLegend s = updateLegend s'.
Proof. intros H. unfold updateLegend, legendEntries. by rewrite H. Qed.

(** X13.  Outside price mode the legend is a single gradient entry
    labelled ["Low to High"], from white to the end colour of the mode in
    hexadecimal, the colour that the ramp of the mode reaches at score 1
    (white at score 0).  Any mode other than price, crime and central has
    the gradient of culture. *)
Theorem legend_gradient (s : State) :
  currentMode s ≠ "price" →
  (∃ swatch, legendEntries s = [(swatch, "Low to High")])
  ∧ (currentMode s = "crime" →
     legendEntries s
     = [("linear-gradient(to right, white, " +:+ cssHex 220 38 38 +:+ ")",
         "Low to High")]
     ∧ getCrimeColor 1 = rgbString 220 38 38
     ∧ getCrimeColor 0 = rgbString 255 255 255)
  ∧ (currentMode s = "central" →
     legendEntries s
     = [("linear-gradient(to right, white, " +:+ cssHex 37 99 235 +:+ ")",
         "Low to High")]
     ∧ getCentralColor 1 = rgbString 37 99 235
     ∧ getCentralColor 0 = rgbString 255 255 255)
  ∧ (currentMode s ≠ "crime" → currentMode s ≠ "central" →
     legendEntries s
     = [("linear-gradient(to right, white, " +:+ cssHex 217 119 6 +:+ ")",
         "Low to High")]
     ∧ getCultureColor 1 = rgbString 217 119 6
     ∧ getCultureColor 0 = rgbString 255 255 255).
Proof.
  intros Hp. unfold legendEntries. rewrite (decide_False _ _ Hp).
  split; [by eexists|]. split; [|split].
  - intros Hm. rewrite (decide_True _ _ Hm). by repeat split.
  - intros Hm. rewrite decide_False by (rewrite Hm; discriminate).
    rewrite (decide_True _ _ Hm). by repeat split.
  - intros Hc Hn. rewrite (decide_False _ _ Hc), (decide_False _ _ Hn).
    by repeat split.
Qed.

Lemma legend_gradient_witness :
  legendEntries (set_currentMode "crime" sampleState)
  = [("linear-gradient(to right, white, #dc2626)", "Low to High")].
Proof.
  apply (proj1 (proj2 (legend_gradient (set_currentMode "crime" sampleState)
                         ltac:(discriminate)))).
  reflexivity.
Defined.

(** *** The legend and the mode *)

Lemma runEvents_cons env pg e es :
  runEvents env pg (e :: es) = runEvents env (dispatch env pg e).2 es.
Proof. reflexivity. Qed.

(** Every handler keeps the legend that of the mode, but that of a mode
    button when it throws. *)
Lemma dispatch_legend env pg e :
  foreign env "updatePostcodeLabels" = None →
  match e with
  | ModeClick _ => returned (dispatch env pg e).1
  | _ => true
  end = true →
  legendContent pg = updateLegend (script pg) →
  legendContent (dispatch env pg e).2
  = updateLegend (script (dispatch env pg e).2).
Proof.
  intros Hforeign Hr Hsync.
  destruct (dispatch_frame env pg e Hforeign)
    as (_ & _ & _ & _ & _ & _ & Hm & _).
  destruct e as [z|f|p|y|t|m].
  - rewrite (updateLegend_mode _ (script pg)) by exact Hm. exact Hsync.
  - rewrite (updateLegend_mode _ (script pg)) by exact Hm.
    cbn. by destruct (onBoroughClick env f (script pg)).
  - rewrite (updateLegend_mode _ (script pg)) by exact Hm.
    cbn. unfold updateMapVisuals.
    by repeat (destruct (setStyle _ _)).
  - rewrite (updateLegend_mode _ (script pg)) by exact Hm.
    cbn. unfold updateMapVisuals.
    by repeat (destruct (setStyle _ _)).
  - rewrite (updateLegend_mode _ (script pg)) by exact Hm.
    cbn. unfold updateMapVisuals.
    by repeat (destruct (setStyle _ _)).
  - clear Hm. cbn in *.
    destruct (updateMapVisuals env
                (set_script (set_currentMode m (script pg)) pg)) as [r pg1].
    by destruct r.
Qed.

Lemma runEvents_legend env pg es :
  foreign env "updatePostcodeLabels" = None →
  modeClicksReturn env pg es = true →
  legendContent pg = updateLegend (script pg) →
  legendContent (runEvents env pg es)
  = updateLegend (script (runEvents env pg es)).
Proof.
  intros Hforeign. revert pg.
  induction es as [|e es IH]; intros pg Hr Hsync; [done|].
  cbn [modeClicksReturn] in Hr. apply andb_true_iff in Hr as [He Hes].
  rewrite runEvents_cons. apply IH; [exact Hes|].
  by apply dispatch_legend.
Qed.

(** X14.  The legend follows the mode as long as no click on a mode
    button throws: after a sequence of events in which the handler of
    every mode click returned, the legend element holds the legend of the
    current mode, whatever the other handlers did.  A mode click whose
    restyling throws has changed the mode and leaves the legend as it
    was. *)
Theorem legend_follows_mode (env : Env)
    (real : gmap string (gmap Z (gmap string Q)))
    (mock : string → MetricRecord) (bs ps : list Feature) :
  foreign env "updatePostcodeLabels" = None →
  (∀ es, modeClicksReturn env (initialPage real mock bs ps) es = true →
         legendContent (runEvents env (initialPage real mock bs ps) es)
         = updateLegend (script (runEvents env (initialPage real mock bs ps) es)))
  ∧ (∀ pg m e,
       (updateMapVisuals env (set_script (set_currentMode m (script pg)) pg)).1
       = Throw e →
       legendContent (dispatch env pg (ModeClick m)).2 = legendContent pg
       ∧ currentMode (script (dispatch env pg (ModeClick m)).2) = m).
Proof.
  intros Hforeign. split.
  - intros es Hr. by apply runEvents_legend.
  - intros pg m e Hr.
    destruct (dispatch_frame env pg (ModeClick m) Hforeign)
      as (_ & _ & _ & _ & _ & _ & Hm & _).
    split; [|exact Hm]. cbn.
    destruct (updateMapVisuals env
                (set_script (set_currentMode m (script pg)) pg))
      as [r pg1] eqn:E.
    cbn in Hr. subst r. cbn.
    assert (Hpg1 : pg1 = (updateMapVisuals env
                            (set_script (set_currentMode m (script pg)) pg)).2)
      by by rewrite E.
    rewrite Hpg1. unfold updateMapVisuals.
    by repeat (destruct (setStyle _ _)).
Qed.

Lemma legend_follows_mode_witness :
  legendContent
    (runEvents sampleEnv samplePage
       [ZoomEnd 12; BoroughClick sampleBorough; ModeClick "crime"])
  = updateLegend (script
      (runEvents sampleEnv samplePage
         [ZoomEnd 12; BoroughClick sampleBorough; ModeClick "crime"]))
  ∧ legendContent
      (dispatch sampleEnv
         (set_script (set_activeBoroughGeometry (Some emptyBorough)
                        (script samplePage)) samplePage)
         (ModeClick "crime")).2
    = legendContent samplePage.
Proof.
  split.
  - apply (proj1 (legend_follows_mode sampleEnv sampleReal sampleMock
                    sampleBoroughs samplePostcodes eq_refl)).
    vm_compute. reflexivity.
  - apply (proj2 (legend_follows_mode sampleEnv sampleReal sampleMock
                    sampleBoroughs samplePostcodes eq_refl)
             (set_script (set_activeBoroughGeometry (Some emptyBorough)
                            (script samplePage)) samplePage)
             "crime" (Error "no coordinates")).
    vm_compute. reflexivity.
Defined.

(** *** Fresh and stale styles *)









